(** * Enso Finance skill bindings (skills/enso): request construction and
      error mapping

    Every binding of [skills/enso/*.py] builds one request (URL, headers,
    optional query parameters or JSON body), hands it to an
    [httpx.AsyncClient], and maps the outcome through a [try]/[except]
    ladder.  The development below embeds

    - the Python values, dictionaries and exceptions the bindings touch
      (module [Py]),
    - the part of httpx the bindings call: [client.get], [client.post],
      [raise_for_status], [response.json] and the exception classes
      (module [Httpx]),
    - the fifteen bindings themselves (module [Enso]),
    - the tables of the bindings' contract: methods, paths, optional
      fields, fallback texts (module [Contract]),
    - the statements of each binding up to its client call, run against
      the interpreter's state: globals, live dictionaries, clock (modules
      [Interp] and [Construction]),

    and proves how the bindings stand to that contract (module
    [EnsoProps]). *)

From Stdlib Require Import String Ascii List ZArith Lia Bool DecimalString
  DecimalPos DecimalZ.
Import ListNotations.
Local Open Scope string_scope.
Set Warnings "-register-all".

(* ===================================================================== *)
(** ** Python values, dictionaries, exceptions *)
(* ===================================================================== *)

Module Py.

(** The values that flow through the bindings.  [PObj] is an object seen
    through its class name and instance attributes (an [httpx.Response]
    stored on an exception, for instance). *)
Inductive pyval : Type :=
| PNone
| PBool (b : bool)
| PInt (z : Z)
| PStr (s : string)
| PList (l : list pyval)
| PDict (d : list (string * pyval))
| PObj (cls : string) (attrs : list (string * pyval)).

(** A [dict] with string keys.  Python dictionaries keep insertion order,
    and that order is the order of the query string, so the dictionary is
    an association list without duplicate keys. *)
Definition pydict : Type := list (string * pyval).

(** [bool(v)]: the test performed by [if v:]. *)
Definition truthy (v : pyval) : bool :=
  match v with
  | PNone => false
  | PBool b => b
  | PInt z => negb (z =? 0)%Z
  | PStr s => negb (s =? "")
  | PList l => match l with [] => false | _ :: _ => true end
  | PDict d => match d with [] => false | _ :: _ => true end
  | PObj _ _ => true
  end.

(** [d.get(k)] *)
Fixpoint dict_get (k : string) (d : pydict) : option pyval :=
  match d with
  | [] => None
  | (k', v) :: d' => if k' =? k then Some v else dict_get k d'
  end.

(** [k in d] *)
Definition dict_mem (k : string) (d : pydict) : bool :=
  match dict_get k d with Some _ => true | None => false end.

(** [d[k] = v]: an existing key keeps its position and takes the new
    value, a new key goes last. *)
Fixpoint dict_set (k : string) (v : pyval) (d : pydict) : pydict :=
  match d with
  | [] => [(k, v)]
  | (k', v') :: d' =>
      if k' =? k then (k', v) :: d' else (k', v') :: dict_set k v d'
  end.

(** [str(n)] for an [int]. *)
Definition str_int (z : Z) : string := NilZero.string_of_int (Z.to_int z).

(** [sep.join(l)] *)
Definition join (sep : string) (l : list string) : string :=
  String.concat sep l.

(** [repr(v)] (string escapes left out) and [str(v)], the conversion an
    f-string applies to [{v}]. *)
Fixpoint py_repr (v : pyval) : string :=
  match v with
  | PNone => "None"
  | PBool true => "True"
  | PBool false => "False"
  | PInt z => str_int z
  | PStr s => "'" ++ s ++ "'"
  | PList l => "[" ++ join ", " (map py_repr l) ++ "]"
  | PDict d =>
      "{" ++ join ", "
               (map (fun kv : string * pyval =>
                       let (k, x) := kv in "'" ++ k ++ "': " ++ py_repr x) d)
          ++ "}"
  | PObj cls _ => "<" ++ cls ++ " object>"
  end.

Definition py_str (v : pyval) : string :=
  match v with
  | PStr s => s
  | _ => py_repr v
  end.

(** Typed arguments seen as Python values. *)
Definition int_or_none (o : option Z) : pyval :=
  match o with Some z => PInt z | None => PNone end.

Definition str_or_none (o : option string) : pyval :=
  match o with Some s => PStr s | None => PNone end.

Definition str_list (l : list string) : pyval := PList (map PStr l).

Definition str_list_or_none (o : option (list string)) : pyval :=
  match o with Some l => str_list l | None => PNone end.

(** *** Exceptions *)

(** The exception classes in play: the builtins that can surface inside
    the [try] block and the httpx hierarchy ([httpx._exceptions]). *)
Inductive exn_class : Type :=
| Exception
| AttributeError
| ValueError
| JSONDecodeError
| HTTPError
| HTTPStatusError
| RequestError
| TransportError
| TimeoutException
| ConnectTimeout
| NetworkError
| ConnectError.

Definition exn_class_eqb (a b : exn_class) : bool :=
  match a, b with
  | Exception, Exception | AttributeError, AttributeError
  | ValueError, ValueError | JSONDecodeError, JSONDecodeError
  | HTTPError, HTTPError | HTTPStatusError, HTTPStatusError
  | RequestError, RequestError | TransportError, TransportError
  | TimeoutException, TimeoutException | ConnectTimeout, ConnectTimeout
  | NetworkError, NetworkError | ConnectError, ConnectError => true
  | _, _ => false
  end.

(** The direct base class; [Exception] is the root here. *)
Definition base (c : exn_class) : option exn_class :=
  match c with
  | Exception => None
  | AttributeError => Some Exception
  | ValueError => Some Exception
  | JSONDecodeError => Some ValueError
  | HTTPError => Some Exception
  | HTTPStatusError => Some HTTPError
  | RequestError => Some HTTPError
  | TransportError => Some RequestError
  | TimeoutException => Some TransportError
  | ConnectTimeout => Some TimeoutException
  | NetworkError => Some TransportError
  | ConnectError => Some NetworkError
  end.

Fixpoint issubclass_upto (fuel : nat) (c c' : exn_class) : bool :=
  exn_class_eqb c c' ||
  match fuel with
  | O => false
  | S fuel' =>
      match base c with
      | Some b => issubclass_upto fuel' b c'
      | None => false
      end
  end.

(** [issubclass(c, c')]; the hierarchy is six classes deep. *)
Definition issubclass (c c' : exn_class) : bool := issubclass_upto 6 c c'.

(** [type(e).__name__] *)
Definition class_name (c : exn_class) : string :=
  match c with
  | Exception => "Exception"
  | AttributeError => "AttributeError"
  | ValueError => "ValueError"
  | JSONDecodeError => "JSONDecodeError"
  | HTTPError => "HTTPError"
  | HTTPStatusError => "HTTPStatusError"
  | RequestError => "RequestError"
  | TransportError => "TransportError"
  | TimeoutException => "TimeoutException"
  | ConnectTimeout => "ConnectTimeout"
  | NetworkError => "NetworkError"
  | ConnectError => "ConnectError"
  end.

(** An exception object: its class, its message ([str(e)]), the
    attributes its constructor stored on the instance, and [__cause__]
    (set by [raise ... from e]). *)
Inductive exn : Type :=
| Exn (cls : exn_class) (msg : string) (attrs : pydict) (cause : option exn).

Definition exn_cls (e : exn) : exn_class := let (c, _, _, _) := e in c.
Definition exn_str (e : exn) : string := let (_, m, _, _) := e in m.
Definition exn_attrs (e : exn) : pydict := let (_, _, a, _) := e in a.
Definition exn_cause (e : exn) : option exn := let (_, _, _, c) := e in c.

(** [isinstance(e, c)]: what an [except c] clause tests. *)
Definition isinstance (e : exn) (c : exn_class) : bool :=
  issubclass (exn_cls e) c.

(** [Exception(msg)] *)
Definition new_exn (c : exn_class) (msg : string) : exn := Exn c msg [] None.

(** The exception [raise x from e] raises. *)
Definition from (x cause : exn) : exn :=
  Exn (exn_cls x) (exn_str x) (exn_attrs x) (Some cause).

(** The result of running a piece of Python: a value, or a raised
    exception. *)
Inductive outcome (A : Type) : Type :=
| Return (a : A)
| Raise (e : exn).
Arguments Return {A} a.
Arguments Raise {A} e.

(** [e.name]: a lookup among the instance attributes; a missing name
    raises [AttributeError] with Python's message. *)
Definition getattr (e : exn) (name : string) : outcome pyval :=
  match dict_get name (exn_attrs e) with
  | Some v => Return v
  | None =>
      Raise (new_exn AttributeError
               ("'" ++ class_name (exn_cls e)
                    ++ "' object has no attribute '" ++ name ++ "'"))
  end.

End Py.

(* ===================================================================== *)
(** ** The httpx calls of the bindings *)
(* ===================================================================== *)

Module Httpx.
Import Py.

Inductive method : Type := GET | POST.

(** What a binding hands to [client.get(url, headers=, params=)] or
    [client.post(url, headers=, json=)]: the request descriptor. *)
Record request : Type := {
  req_method : method;
  req_url : string;
  req_headers : list (string * string);
  req_params : option pydict;
  req_json : option pydict
}.

(** The response body, as [response.json()] sees it. *)
Inductive json_body : Type :=
| Decodes (v : pyval)
| Malformed (diagnostic : string).

Record response : Type := {
  status_code : Z;
  reason_phrase : string;
  resp_url : string;
  body : json_body
}.

(** The network: a request is answered by a response, or the call fails
    with an exception of the transport. *)
Inductive reply : Type :=
| Responds (r : response)
| Fails (e : exn).

Definition transport : Type := request -> reply.

(** A computation of a binding: it runs against a transport, ends in a
    value or an exception, and leaves the list of requests it issued. *)
Definition tool (A : Type) : Type := transport -> outcome A * list request.

Definition ret {A} (a : A) : tool A := fun _ => (Return a, []).

Definition raise {A} (e : exn) : tool A := fun _ => (Raise e, []).

Definition lift {A} (o : outcome A) : tool A := fun _ => (o, []).

Definition bind {A B} (m : tool A) (k : A -> tool B) : tool B :=
  fun net =>
    match m net with
    | (Return a, sent) => let (o, sent') := k a net in (o, (sent ++ sent')%list)
    | (Raise e, sent) => (Raise e, sent)
    end.

(** [raise x from e] *)
Definition raise_from {A} (x e : exn) : tool A := raise (from x e).

(** [try: body except c1 as e: h1 except c2 as e: h2 ...]: the first
    clause whose class the exception is an instance of handles it; an
    exception raised by a handler leaves the statement, the clauses after
    it do not see it. *)
Definition try_except {A} (body : tool A)
    (handlers : list (exn_class * (exn -> tool A))) : tool A :=
  fun net =>
    match body net with
    | (Return a, sent) => (Return a, sent)
    | (Raise e, sent) =>
        match find (fun h => isinstance e (fst h)) handlers with
        | Some h => let (o, sent') := snd h e net in (o, (sent ++ sent')%list)
        | None => (Raise e, sent)
        end
    end.

Definition send (r : request) : tool response :=
  fun net =>
    match net r with
    | Responds resp => (Return resp, [r])
    | Fails e => (Raise e, [r])
    end.

(** [await client.get(url, headers=headers, params=params)] *)
Definition client_get (url : string) (headers : list (string * string))
    (params : option pydict) : tool response :=
  send {| req_method := GET; req_url := url; req_headers := headers;
          req_params := params; req_json := None |}.

(** [await client.post(url, headers=headers, json=data)] *)
Definition client_post (url : string) (headers : list (string * string))
    (data : pydict) : tool response :=
  send {| req_method := POST; req_url := url; req_headers := headers;
          req_params := None; req_json := Some data |}.

(** [response.is_success] *)
Definition is_success (r : response) : bool :=
  ((200 <=? status_code r) && (status_code r <=? 299))%Z.

(** The [httpx.Response] as an object: the attribute the handlers would
    have to go through to reach the status. *)
Definition response_obj (r : response) : pyval :=
  PObj "Response"
       [("status_code", PInt (status_code r));
        ("reason_phrase", PStr (reason_phrase r))].

(** The first line of the message [raise_for_status] builds. *)
Definition status_message (r : response) : string :=
  let error_type :=
    match (status_code r / 100)%Z with
    | 1%Z => "Informational response"
    | 3%Z => "Redirect response"
    | 4%Z => "Client error"
    | 5%Z => "Server error"
    | _ => "Invalid status code"
    end in
  error_type ++ " '" ++ str_int (status_code r) ++ " " ++ reason_phrase r
             ++ "' for url '" ++ resp_url r ++ "'".

(** [HTTPStatusError(message, request=request, response=response)]: the
    constructor stores [request] and [response] on the instance, and
    nothing else. *)
Definition http_status_error (r : response) : exn :=
  Exn HTTPStatusError (status_message r)
      [("request", PObj "Request" [("url", PStr (resp_url r))]);
       ("response", response_obj r)]
      None.

(** [response.raise_for_status()] *)
Definition raise_for_status (r : response) : tool unit :=
  if is_success r then ret tt else raise (http_status_error r).

(** [response.json()]; a body that is not JSON raises
    [json.JSONDecodeError], a [ValueError]. *)
Definition response_json (r : response) : tool pyval :=
  match body r with
  | Decodes v => ret v
  | Malformed d => raise (new_exn JSONDecodeError d)
  end.

(** [async with httpx.AsyncClient() as client: body]: the client lives
    for the body and is closed on every way out; its [__aexit__] does not
    swallow an exception of the body. *)
Definition async_with_client {A} (body : tool A) : tool A := body.

Definition run {A} (m : tool A) (net : transport) : outcome A := fst (m net).

Definition sent {A} (m : tool A) (net : transport) : list request :=
  snd (m net).

End Httpx.

Declare Scope tool_scope.
Delimit Scope tool_scope with tool.
Notation "x <- m ;; k" := (Httpx.bind m (fun x => k))
  (at level 61, m at next level, right associativity) : tool_scope.
Notation "m ;; k" := (Httpx.bind m (fun _ => k))
  (at level 61, right associativity) : tool_scope.

(* ===================================================================== *)
(** ** The bindings *)
(* ===================================================================== *)

Module Enso.
Import Py Httpx.
Local Open Scope tool_scope.

(** [Union[str, list[str]]], the type of [underlying_tokens]. *)
Inductive str_or_list : Type :=
| OneStr (s : string)
| ManyStr (l : list string).

Section Bindings.

(** [base_url] comes from the package's [__init__] through
    [from . import *]; the bindings only read it. *)
Variable base_url : string.

(** *** actions.py *)

Definition get_actions (api_token : string) : tool pyval :=
  let url := base_url ++ "/actions" in
  let headers :=
    [("accept", "application/json");
     ("Authorization", "Bearer " ++ api_token)] in
  async_with_client (try_except
    (response <- client_get url headers None ;;
     raise_for_status response ;;
     response_json response)
    [(HTTPStatusError, fun e =>
        status_code <- lift (getattr e "status_code") ;;
        raise_from
          (new_exn Exception
             ("API request failed with status code: " ++ py_str status_code))
          e);
     (HTTPError, fun e =>
        raise_from
          (new_exn Exception ("An HTTP error occurred: " ++ exn_str e)) e);
     (Exception, fun e =>
        ret (PStr ("error getting the enso actions " ++ exn_str e)))]).

(** *** bundle.py *)

Definition post_bundle_info (api_token : string) (chain_id : Z)
    (from_address routing_strategy receiver spender : string) : tool pyval :=
  let url := base_url ++ "/shortcuts/bundle" in
  let headers :=
    [("accept", "application/json");
     ("Authorization", "Bearer " ++ api_token);
     ("Content-Type", "application/json")] in
  let params : pydict :=
    [("fromAddress", PStr from_address);
     ("routingStrategy", PStr routing_strategy);
     ("receiver", PStr receiver);
     ("spender", PStr spender)] in
  let params :=
    if truthy (PInt chain_id)
    then dict_set "chainId" (PInt chain_id) params else params in
  async_with_client (try_except
    (response <- client_post url headers params ;;
     raise_for_status response ;;
     response_json response)
    [(HTTPStatusError, fun e =>
        status_code <- lift (getattr e "status_code") ;;
        raise_from
          (new_exn Exception
             ("API request failed with status code: " ++ py_str status_code))
          e);
     (HTTPError, fun e =>
        raise_from
          (new_exn Exception ("An HTTP error occurred: " ++ exn_str e)) e)]).

(** *** networks.py *)

Definition get_supported_networks (api_token name chainId : string)
    : tool pyval :=
  let url := base_url ++ "/networks" in
  let headers :=
    [("accept", "application/json");
     ("Authorization", "Bearer " ++ api_token)] in
  let params : pydict :=
    [("name", PStr name);
     ("chainId", PStr chainId)] in
  async_with_client (try_except
    (response <- client_get url headers (Some params) ;;
     raise_for_status response ;;
     response_json response)
    [(HTTPStatusError, fun e =>
        status_code <- lift (getattr e "status_code") ;;
        raise_from
          (new_exn Exception
             ("API request failed with status code: " ++ py_str status_code))
          e);
     (HTTPError, fun e =>
        raise_from
          (new_exn Exception ("An HTTP error occurred: " ++ exn_str e)) e)]).

(** *** prices.py *)

Definition get_token_prices (api_token : string) (chain_id : Z)
    (address : string) : tool pyval :=
  let url :=
    base_url ++ "/shortcuts/route/" ++ str_int chain_id ++ "/" ++ address in
  let headers :=
    [("accept", "application/json");
     ("Authorization", "Bearer " ++ api_token)] in
  async_with_client (try_except
    (response <- client_get url headers None ;;
     raise_for_status response ;;
     response_json response)
    [(HTTPStatusError, fun e =>
        status_code <- lift (getattr e "status_code") ;;
        raise_from
          (new_exn Exception
             ("API request failed with status code: " ++ py_str status_code))
          e);
     (HTTPError, fun e =>
        raise_from
          (new_exn Exception ("An HTTP error occurred: " ++ exn_str e)) e);
     (Exception, fun e =>
        ret (PStr ("error getting the enso tokens " ++ exn_str e)))]).

(** *** protocols.py *)

Definition get_protocols (api_token : string) (slug : option string)
    : tool pyval :=
  let url := base_url ++ "/protocols" in
  let headers :=
    [("accept", "application/json");
     ("Authorization", "Bearer " ++ api_token)] in
  let params : pydict := [] in
  let params :=
    if truthy (str_or_none slug)
    then dict_set "slug" (str_or_none slug) params else params in
  async_with_client (try_except
    (response <- client_get url headers (Some params) ;;
     raise_for_status response ;;
     response_json response)
    [(HTTPStatusError, fun e =>
        status_code <- lift (getattr e "status_code") ;;
        raise_from
          (new_exn Exception
             ("API request failed with status code: " ++ py_str status_code))
          e);
     (HTTPError, fun e =>
        raise_from
          (new_exn Exception ("An HTTP error occurred: " ++ exn_str e)) e);
     (Exception, fun e =>
        ret (PStr ("error getting the enso tokens " ++ exn_str e)))]).

(** *** quote.py *)

Definition get_shortcut_route (api_token : string) (chain_id : option Z)
    (from_address routing_strategy token_in token_out amount_in fee
       fee_receiver : string)
    (disable_rfqs : bool) (ignore_aggregators ignore_standards : option string)
    : tool pyval :=
  let url := base_url ++ "/shortcuts/quote" in
  let headers :=
    [("accept", "application/json");
     ("Authorization", "Bearer " ++ api_token)] in
  let params : pydict :=
    [("chainId", int_or_none chain_id);
     ("fromAddress", PStr from_address);
     ("routingStrategy", PStr routing_strategy);
     ("amountIn", PStr amount_in);
     ("fee", PStr fee);
     ("feeReceiver", PStr fee_receiver);
     ("disableRFQs", PBool disable_rfqs);
     ("tokenIn", PStr token_in);
     ("tokenOut", PStr token_out)] in
  let params :=
    if truthy (str_or_none ignore_aggregators)
    then dict_set "ignoreAggregators" (str_or_none ignore_aggregators) params
    else params in
  let params :=
    if truthy (str_or_none ignore_aggregators)
    then dict_set "ignoreStandards" (str_or_none ignore_standards) params
    else params in
  async_with_client (try_except
    (response <- client_get url headers (Some params) ;;
     raise_for_status response ;;
     response_json response)
    [(HTTPStatusError, fun e =>
        status_code <- lift (getattr e "status_code") ;;
        raise_from
          (new_exn Exception
             ("API request failed with status code: " ++ py_str status_code))
          e);
     (HTTPError, fun e =>
        raise_from
          (new_exn Exception ("An HTTP error occurred: " ++ exn_str e)) e);
     (Exception, fun e =>
        ret (PStr ("error getting swap route " ++ exn_str e)))]).

Definition get_shortcut_quote (api_token : string) (chain_id : Z)
    (from_address routing_strategy : string) (route : list pydict)
    (fee : list string) (fee_receiver : string) (disable_rfqs : bool)
    (ignore_aggregators : option (list string)) (block_number : option string)
    : tool pyval :=
  let url := base_url ++ "/shortcuts/quote" in
  let headers :=
    [("accept", "application/json");
     ("Authorization", "Bearer " ++ api_token);
     ("Content-Type", "application/json")] in
  let data : pydict :=
    [("chainId", PInt chain_id);
     ("fromAddress", PStr from_address);
     ("routingStrategy", PStr routing_strategy);
     ("route", PList (map PDict route));
     ("fee", str_list fee);
     ("feeReceiver", PStr fee_receiver);
     ("disableRFQs", PBool disable_rfqs);
     ("ignoreAggregators", str_list_or_none ignore_aggregators);
     ("blockNumber", str_or_none block_number)] in
  async_with_client (try_except
    (response <- client_post url headers data ;;
     raise_for_status response ;;
     response_json response)
    [(HTTPStatusError, fun e =>
        status_code <- lift (getattr e "status_code") ;;
        raise_from
          (new_exn Exception
             ("API request failed with status code: " ++ py_str status_code))
          e);
     (HTTPError, fun e =>
        raise_from
          (new_exn Exception ("An HTTP error occurred: " ++ exn_str e)) e);
     (Exception, fun e =>
        ret (PStr ("error getting swap route " ++ exn_str e)))]).

(** *** route.py *)

Definition get_swap_tokens (api_token : string) (chain_id : Z)
    (from_address spender receiver : string)
    (token_in amount_in token_out : list string) (routing_strategy : string)
    (amount_out : list string) (min_amount_out : option string)
    (slippage : string) (fee : list string) (fee_receiver : string)
    (disable_rfqs : bool) (ignore_aggregators ignore_standards : list string)
    (variable_estimates : option string) : tool pyval :=
  let url := base_url ++ "/shortcuts/route" in
  let headers :=
    [("accept", "application/json");
     ("Authorization", "Bearer " ++ api_token);
     ("Content-Type", "application/json")] in
  let data : pydict :=
    [("chainId", PInt chain_id);
     ("fromAddress", PStr from_address);
     ("routingStrategy", PStr routing_strategy);
     ("receiver", PStr receiver);
     ("spender", PStr spender);
     ("amountIn", str_list amount_in);
     ("amountOut", str_list amount_out);
     ("minAmountOut", str_or_none min_amount_out);
     ("slippage", PStr slippage);
     ("fee", str_list fee);
     ("feeReceiver", PStr fee_receiver);
     ("disableRFQs", PBool disable_rfqs);
     ("ignoreAggregators", str_list ignore_aggregators);
     ("ignoreStandards", str_list ignore_standards);
     ("tokenIn", str_list token_in);
     ("tokenOut", str_list token_out);
     ("variableEstimates", str_or_none variable_estimates)] in
  async_with_client (try_except
    (response <- client_post url headers data ;;
     raise_for_status response ;;
     response_json response)
    [(HTTPStatusError, fun e =>
        status_code <- lift (getattr e "status_code") ;;
        raise_from
          (new_exn Exception
             ("API request failed with status code: " ++ py_str status_code))
          e);
     (HTTPError, fun e =>
        raise_from
          (new_exn Exception ("An HTTP error occurred: " ++ exn_str e)) e);
     (Exception, fun e =>
        ret (PStr ("error getting swap route " ++ exn_str e)))]).

Definition post_swap_tokens (api_token : string) (chain_id : Z)
    (from_address routing_strategy receiver spender : string)
    (amount_in amount_out : list string) (min_amount_out : option string)
    (slippage : string) (fee : list string) (fee_receiver : string)
    (disable_rfqs : bool) (ignore_aggregators ignore_standards : list string)
    (token_in token_out : list string) (variable_estimates : option string)
    : tool pyval :=
  let url := base_url ++ "/shortcuts/route" in
  let headers :=
    [("accept", "application/json");
     ("Authorization", "Bearer " ++ api_token);
     ("Content-Type", "application/json")] in
  let data : pydict :=
    [("chainId", PInt chain_id);
     ("fromAddress", PStr from_address);
     ("routingStrategy", PStr routing_strategy);
     ("receiver", PStr receiver);
     ("spender", PStr spender);
     ("amountIn", str_list amount_in);
     ("amountOut", str_list amount_out);
     ("minAmountOut", str_or_none min_amount_out);
     ("slippage", PStr slippage);
     ("fee", str_list fee);
     ("feeReceiver", PStr fee_receiver);
     ("disableRFQs", PBool disable_rfqs);
     ("ignoreAggregators", str_list ignore_aggregators);
     ("ignoreStandards", str_list ignore_standards);
     ("tokenIn", str_list token_in);
     ("tokenOut", str_list token_out);
     ("variableEstimates", str_or_none variable_estimates)] in
  async_with_client (try_except
    (response <- client_post url headers data ;;
     raise_for_status response ;;
     response_json response)
    [(HTTPStatusError, fun e =>
        status_code <- lift (getattr e "status_code") ;;
        raise_from
          (new_exn Exception
             ("API request failed with status code: " ++ py_str status_code))
          e);
     (HTTPError, fun e =>
        raise_from
          (new_exn Exception ("An HTTP error occurred: " ++ exn_str e)) e);
     (Exception, fun e =>
        ret (PStr ("error getting swap route " ++ exn_str e)))]).

(** *** static.py *)

Definition post_static_ipor_info (api_token : string) (chain_id : Z)
    (address : string) : tool pyval :=
  let url := base_url ++ "/static/ipor" in
  let headers :=
    [("accept", "application/json");
     ("Authorization", "Bearer " ++ api_token);
     ("Content-Type", "application/json")] in
  let data : pydict :=
    [("chainId", PInt chain_id); ("address", PStr address)] in
  async_with_client (try_except
    (response <- client_post url headers data ;;
     raise_for_status response ;;
     response_json response)
    [(HTTPStatusError, fun e =>
        status_code <- lift (getattr e "status_code") ;;
        raise_from
          (new_exn Exception
             ("API request failed with status code: " ++ py_str status_code))
          e);
     (HTTPError, fun e =>
        raise_from
          (new_exn Exception ("An HTTP error occurred: " ++ exn_str e)) e)]).

(** *** tokens.py *)

Definition get_tokens_info (api_token : string) (chain_id : Z)
    (underlying_tokens : str_or_list)
    (protocol_slug primary_address type : option string) (page per_page : Z)
    : tool pyval :=
  let url := base_url ++ "/tokens" in
  let headers :=
    [("accept", "application/json");
     ("Authorization", "Bearer " ++ api_token)] in
  let params : pydict :=
    [("chainId", PInt chain_id);
     ("page", PInt page);
     ("perPage", PInt per_page)] in
  let params :=
    if truthy (str_or_none protocol_slug)
    then dict_set "protocolSlug" (str_or_none protocol_slug) params
    else params in
  let params :=
    if truthy (str_or_none primary_address)
    then dict_set "primaryAddress" (str_or_none primary_address) params
    else params in
  let params :=
    if truthy (str_or_none type)
    then dict_set "type" (str_or_none type) params else params in
  let params :=
    match underlying_tokens with
    | OneStr s => dict_set "underlyingTokens" (PStr s) params
    | ManyStr l => dict_set "underlyingTokens" (PStr (join "," l)) params
    end in
  async_with_client (try_except
    (response <- client_get url headers (Some params) ;;
     raise_for_status response ;;
     response_json response)
    [(HTTPStatusError, fun e =>
        status_code <- lift (getattr e "status_code") ;;
        raise_from
          (new_exn Exception
             ("API request failed with status code: " ++ py_str status_code))
          e);
     (HTTPError, fun e =>
        raise_from
          (new_exn Exception ("An HTTP error occurred: " ++ exn_str e)) e)]).

(** *** wallet.py *)

Definition get_wallet_info (api_token : string) (chain_id : option Z)
    (from_address routing_strategy : string) : tool pyval :=
  let url := base_url ++ "/wallet" in
  let headers :=
    [("accept", "application/json");
     ("Authorization", "Bearer " ++ api_token)] in
  let params : pydict :=
    [("fromAddress", PStr from_address)] in
  let params :=
    if truthy (int_or_none chain_id)
    then dict_set "chainId" (int_or_none chain_id) params else params in
  let params :=
    if truthy (PStr routing_strategy)
    then dict_set "routingStrategy" (PStr routing_strategy) params
    else params in
  async_with_client (try_except
    (response <- client_get url headers (Some params) ;;
     raise_for_status response ;;
     response_json response)
    [(HTTPStatusError, fun e =>
        status_code <- lift (getattr e "status_code") ;;
        raise_from
          (new_exn Exception
             ("API request failed with status code: " ++ py_str status_code))
          e);
     (HTTPError, fun e =>
        raise_from
          (new_exn Exception ("An HTTP error occurred: " ++ exn_str e)) e);
     (Exception, fun e =>
        ret (PStr ("error getting the enso wallet " ++ exn_str e)))]).

Definition approve_wallet_token (api_token : string) (chain_id : option Z)
    (from_address routing_strategy token_address amount : string)
    : tool pyval :=
  let url := base_url ++ "/wallet/approve" in
  let headers :=
    [("accept", "application/json");
     ("Authorization", "Bearer " ++ api_token)] in
  let params : pydict :=
    [("chainId", int_or_none chain_id);
     ("fromAddress", PStr from_address);
     ("routingStrategy", PStr routing_strategy);
     ("tokenAddress", PStr token_address);
     ("amount", PStr amount)] in
  let params :=
    if truthy (int_or_none chain_id)
    then dict_set "chainId" (int_or_none chain_id) params else params in
  let params :=
    if truthy (PStr routing_strategy)
    then dict_set "routingStrategy" (PStr routing_strategy) params
    else params in
  async_with_client (try_except
    (response <- client_get url headers (Some params) ;;
     raise_for_status response ;;
     response_json response)
    [(HTTPStatusError, fun e =>
        status_code <- lift (getattr e "status_code") ;;
        raise_from
          (new_exn Exception
             ("API request failed with status code: " ++ py_str status_code))
          e);
     (HTTPError, fun e =>
        raise_from
          (new_exn Exception ("An HTTP error occurred: " ++ exn_str e)) e);
     (Exception, fun e =>
        ret (PStr ("error getting the enso wallet " ++ exn_str e)))]).

Definition approvals_wallet_token (api_token : string) (chain_id : option Z)
    (from_address routing_strategy : string) : tool pyval :=
  let url := base_url ++ "/wallet/approvals" in
  let headers :=
    [("accept", "application/json");
     ("Authorization", "Bearer " ++ api_token)] in
  let params : pydict :=
    [("chainId", int_or_none chain_id);
     ("fromAddress", PStr from_address)] in
  let params :=
    if truthy (int_or_none chain_id)
    then dict_set "chainId" (int_or_none chain_id) params else params in
  let params :=
    if truthy (PStr routing_strategy)
    then dict_set "routingStrategy" (PStr routing_strategy) params
    else params in
  async_with_client (try_except
    (response <- client_get url headers (Some params) ;;
     raise_for_status response ;;
     response_json response)
    [(HTTPStatusError, fun e =>
        status_code <- lift (getattr e "status_code") ;;
        raise_from
          (new_exn Exception
             ("API request failed with status code: " ++ py_str status_code))
          e);
     (HTTPError, fun e =>
        raise_from
          (new_exn Exception ("An HTTP error occurred: " ++ exn_str e)) e);
     (Exception, fun e =>
        ret (PStr ("error getting the enso wallet " ++ exn_str e)))]).

Definition get_wallet_balances (api_token : string) (chain_id : Z)
    (eoa_address : string) (use_eoa : bool) : tool pyval :=
  let url := base_url ++ "/wallet/balances" in
  let headers :=
    [("accept", "application/json");
     ("Authorization", "Bearer " ++ api_token)] in
  let params : pydict :=
    [("chainId", PInt chain_id);
     ("eoaAddress", PStr eoa_address);
     ("useEoa", PBool use_eoa)] in
  async_with_client (try_except
    (response <- client_get url headers (Some params) ;;
     raise_for_status response ;;
     response_json response)
    [(HTTPStatusError, fun e =>
        status_code <- lift (getattr e "status_code") ;;
        raise_from
          (new_exn Exception
             ("API request failed with status code: " ++ py_str status_code))
          e);
     (HTTPError, fun e =>
        raise_from
          (new_exn Exception ("An HTTP error occurred: " ++ exn_str e)) e);
     (Exception, fun e =>
        ret (PStr ("error getting the enso wallet " ++ exn_str e)))]).

(** *** wallet.py with the trailing conditionals taken out

    The reference programs of the dead-code question: each is the binding
    above minus the named [if] blocks that follow the [params] literal. *)

(** [approve_wallet_token] without [if chain_id:] and
    [if routing_strategy:]. *)
Definition approve_wallet_token_unconditional (api_token : string)
    (chain_id : option Z)
    (from_address routing_strategy token_address amount : string)
    : tool pyval :=
  let url := base_url ++ "/wallet/approve" in
  let headers :=
    [("accept", "application/json");
     ("Authorization", "Bearer " ++ api_token)] in
  let params : pydict :=
    [("chainId", int_or_none chain_id);
     ("fromAddress", PStr from_address);
     ("routingStrategy", PStr routing_strategy);
     ("tokenAddress", PStr token_address);
     ("amount", PStr amount)] in
  async_with_client (try_except
    (response <- client_get url headers (Some params) ;;
     raise_for_status response ;;
     response_json response)
    [(HTTPStatusError, fun e =>
        status_code <- lift (getattr e "status_code") ;;
        raise_from
          (new_exn Exception
             ("API request failed with status code: " ++ py_str status_code))
          e);
     (HTTPError, fun e =>
        raise_from
          (new_exn Exception ("An HTTP error occurred: " ++ exn_str e)) e);
     (Exception, fun e =>
        ret (PStr ("error getting the enso wallet " ++ exn_str e)))]).

(** [approvals_wallet_token] without [if chain_id:] and
    [if routing_strategy:]. *)
Definition approvals_wallet_token_unconditional (api_token : string)
    (chain_id : option Z) (from_address routing_strategy : string)
    : tool pyval :=
  let url := base_url ++ "/wallet/approvals" in
  let headers :=
    [("accept", "application/json");
     ("Authorization", "Bearer " ++ api_token)] in
  let params : pydict :=
    [("chainId", int_or_none chain_id);
     ("fromAddress", PStr from_address)] in
  async_with_client (try_except
    (response <- client_get url headers (Some params) ;;
     raise_for_status response ;;
     response_json response)
    [(HTTPStatusError, fun e =>
        status_code <- lift (getattr e "status_code") ;;
        raise_from
          (new_exn Exception
             ("API request failed with status code: " ++ py_str status_code))
          e);
     (HTTPError, fun e =>
        raise_from
          (new_exn Exception ("An HTTP error occurred: " ++ exn_str e)) e);
     (Exception, fun e =>
        ret (PStr ("error getting the enso wallet " ++ exn_str e)))]).

(** [approvals_wallet_token] without [if chain_id:] only. *)
Definition approvals_wallet_token_no_chain_recheck (api_token : string)
    (chain_id : option Z) (from_address routing_strategy : string)
    : tool pyval :=
  let url := base_url ++ "/wallet/approvals" in
  let headers :=
    [("accept", "application/json");
     ("Authorization", "Bearer " ++ api_token)] in
  let params : pydict :=
    [("chainId", int_or_none chain_id);
     ("fromAddress", PStr from_address)] in
  let params :=
    if truthy (PStr routing_strategy)
    then dict_set "routingStrategy" (PStr routing_strategy) params
    else params in
  async_with_client (try_except
    (response <- client_get url headers (Some params) ;;
     raise_for_status response ;;
     response_json response)
    [(HTTPStatusError, fun e =>
        status_code <- lift (getattr e "status_code") ;;
        raise_from
          (new_exn Exception
             ("API request failed with status code: " ++ py_str status_code))
          e);
     (HTTPError, fun e =>
        raise_from
          (new_exn Exception ("An HTTP error occurred: " ++ exn_str e)) e);
     (Exception, fun e =>
        ret (PStr ("error getting the enso wallet " ++ exn_str e)))]).

End Bindings.

(** *** The bindings as one family *)

Inductive binding : Type :=
| B_get_actions
| B_post_bundle_info
| B_get_supported_networks
| B_get_token_prices
| B_get_protocols
| B_get_shortcut_route
| B_get_shortcut_quote
| B_get_swap_tokens
| B_post_swap_tokens
| B_post_static_ipor_info
| B_get_tokens_info
| B_get_wallet_info
| B_approve_wallet_token
| B_approvals_wallet_token
| B_get_wallet_balances.

(** An invocation: a binding together with its arguments, in the order of
    the signature. *)
Inductive call : Type :=
| Get_actions (api_token : string)
| Post_bundle_info (api_token : string) (chain_id : Z)
    (from_address routing_strategy receiver spender : string)
| Get_supported_networks (api_token name chainId : string)
| Get_token_prices (api_token : string) (chain_id : Z) (address : string)
| Get_protocols (api_token : string) (slug : option string)
| Get_shortcut_route (api_token : string) (chain_id : option Z)
    (from_address routing_strategy token_in token_out amount_in fee
       fee_receiver : string)
    (disable_rfqs : bool) (ignore_aggregators ignore_standards : option string)
| Get_shortcut_quote (api_token : string) (chain_id : Z)
    (from_address routing_strategy : string) (route : list pydict)
    (fee : list string) (fee_receiver : string) (disable_rfqs : bool)
    (ignore_aggregators : option (list string)) (block_number : option string)
| Get_swap_tokens (api_token : string) (chain_id : Z)
    (from_address spender receiver : string)
    (token_in amount_in token_out : list string) (routing_strategy : string)
    (amount_out : list string) (min_amount_out : option string)
    (slippage : string) (fee : list string) (fee_receiver : string)
    (disable_rfqs : bool) (ignore_aggregators ignore_standards : list string)
    (variable_estimates : option string)
| Post_swap_tokens (api_token : string) (chain_id : Z)
    (from_address routing_strategy receiver spender : string)
    (amount_in amount_out : list string) (min_amount_out : option string)
    (slippage : string) (fee : list string) (fee_receiver : string)
    (disable_rfqs : bool) (ignore_aggregators ignore_standards : list string)
    (token_in token_out : list string) (variable_estimates : option string)
| Post_static_ipor_info (api_token : string) (chain_id : Z) (address : string)
| Get_tokens_info (api_token : string) (chain_id : Z)
    (underlying_tokens : str_or_list)
    (protocol_slug primary_address type : option string) (page per_page : Z)
| Get_wallet_info (api_token : string) (chain_id : option Z)
    (from_address routing_strategy : string)
| Approve_wallet_token (api_token : string) (chain_id : option Z)
    (from_address routing_strategy token_address amount : string)
| Approvals_wallet_token (api_token : string) (chain_id : option Z)
    (from_address routing_strategy : string)
| Get_wallet_balances (api_token : string) (chain_id : Z)
    (eoa_address : string) (use_eoa : bool).

Definition binding_of (c : call) : binding :=
  match c with
  | Get_actions _ => B_get_actions
  | Post_bundle_info _ _ _ _ _ _ => B_post_bundle_info
  | Get_supported_networks _ _ _ => B_get_supported_networks
  | Get_token_prices _ _ _ => B_get_token_prices
  | Get_protocols _ _ => B_get_protocols
  | Get_shortcut_route _ _ _ _ _ _ _ _ _ _ _ _ => B_get_shortcut_route
  | Get_shortcut_quote _ _ _ _ _ _ _ _ _ _ => B_get_shortcut_quote
  | Get_swap_tokens _ _ _ _ _ _ _ _ _ _ _ _ _ _ _ _ _ _ => B_get_swap_tokens
  | Post_swap_tokens _ _ _ _ _ _ _ _ _ _ _ _ _ _ _ _ _ _ => B_post_swap_tokens
  | Post_static_ipor_info _ _ _ => B_post_static_ipor_info
  | Get_tokens_info _ _ _ _ _ _ _ _ => B_get_tokens_info
  | Get_wallet_info _ _ _ _ => B_get_wallet_info
  | Approve_wallet_token _ _ _ _ _ _ => B_approve_wallet_token
  | Approvals_wallet_token _ _ _ _ => B_approvals_wallet_token
  | Get_wallet_balances _ _ _ _ => B_get_wallet_balances
  end.

(** The first argument of every binding. *)
Definition api_token_of (c : call) : string :=
  match c with
  | Get_actions t
  | Post_bundle_info t _ _ _ _ _
  | Get_supported_networks t _ _
  | Get_token_prices t _ _
  | Get_protocols t _
  | Get_shortcut_route t _ _ _ _ _ _ _ _ _ _ _
  | Get_shortcut_quote t _ _ _ _ _ _ _ _ _
  | Get_swap_tokens t _ _ _ _ _ _ _ _ _ _ _ _ _ _ _ _ _
  | Post_swap_tokens t _ _ _ _ _ _ _ _ _ _ _ _ _ _ _ _ _
  | Post_static_ipor_info t _ _
  | Get_tokens_info t _ _ _ _ _ _ _
  | Get_wallet_info t _ _ _
  | Approve_wallet_token t _ _ _ _ _
  | Approvals_wallet_token t _ _ _
  | Get_wallet_balances t _ _ _ => t
  end.

(** Running an invocation. *)
Definition invoke (base_url : string) (c : call) : tool pyval :=
  match c with
  | Get_actions t => get_actions base_url t
  | Post_bundle_info t a1 a2 a3 a4 a5 =>
      post_bundle_info base_url t a1 a2 a3 a4 a5
  | Get_supported_networks t a1 a2 => get_supported_networks base_url t a1 a2
  | Get_token_prices t a1 a2 => get_token_prices base_url t a1 a2
  | Get_protocols t a1 => get_protocols base_url t a1
  | Get_shortcut_route t a1 a2 a3 a4 a5 a6 a7 a8 a9 a10 a11 =>
      get_shortcut_route base_url t a1 a2 a3 a4 a5 a6 a7 a8 a9 a10 a11
  | Get_shortcut_quote t a1 a2 a3 a4 a5 a6 a7 a8 a9 =>
      get_shortcut_quote base_url t a1 a2 a3 a4 a5 a6 a7 a8 a9
  | Get_swap_tokens t a1 a2 a3 a4 a5 a6 a7 a8 a9 a10 a11 a12 a13 a14 a15 a16
      a17 =>
      get_swap_tokens base_url t a1 a2 a3 a4 a5 a6 a7 a8 a9 a10 a11 a12 a13
        a14 a15 a16 a17
  | Post_swap_tokens t a1 a2 a3 a4 a5 a6 a7 a8 a9 a10 a11 a12 a13 a14 a15 a16
      a17 =>
      post_swap_tokens base_url t a1 a2 a3 a4 a5 a6 a7 a8 a9 a10 a11 a12 a13
        a14 a15 a16 a17
  | Post_static_ipor_info t a1 a2 => post_static_ipor_info base_url t a1 a2
  | Get_tokens_info t a1 a2 a3 a4 a5 a6 a7 =>
      get_tokens_info base_url t a1 a2 a3 a4 a5 a6 a7
  | Get_wallet_info t a1 a2 a3 => get_wallet_info base_url t a1 a2 a3
  | Approve_wallet_token t a1 a2 a3 a4 a5 =>
      approve_wallet_token base_url t a1 a2 a3 a4 a5
  | Approvals_wallet_token t a1 a2 a3 =>
      approvals_wallet_token base_url t a1 a2 a3
  | Get_wallet_balances t a1 a2 a3 => get_wallet_balances base_url t a1 a2 a3
  end.

End Enso.

(* ===================================================================== *)
(** ** The contract of the bindings, as tables *)
(* ===================================================================== *)

Module Contract.
Import Py Httpx Enso.

(** [needle in hay] for strings. *)
Fixpoint contains (needle hay : string) : bool :=
  String.prefix needle hay ||
  match hay with
  | EmptyString => false
  | String _ hay' => contains needle hay'
  end.

(** The characters a rendered integer can start with. *)
Definition starts_number (c : ascii) : bool :=
  existsb (Ascii.eqb c)
    ["0"; "1"; "2"; "3"; "4"; "5"; "6"; "7"; "8"; "9"; "-"]%char.

(** The dictionary a request serialises: the JSON body of a POST, the
    query parameters of a GET, nothing when neither was given. *)
Definition payload (r : request) : pydict :=
  match req_json r with
  | Some d => d
  | None => match req_params r with Some d => d | None => [] end
  end.

(** The header set every request is to carry for a token. *)
Definition contract_headers (m : method) (api_token : string)
    : list (string * string) :=
  [("accept", "application/json"); ("Authorization", "Bearer " ++ api_token)]
  ++ match m with
     | POST => [("Content-Type", "application/json")]
     | GET => []
     end.

(** The method column of the table of per-endpoint bindings, read the way
    the table prints it: get swap tokens is the GET of its row, post swap
    tokens the POST. *)
Definition table_method (b : binding) : method :=
  match b with
  | B_get_actions => GET
  | B_post_bundle_info => POST
  | B_get_supported_networks => GET
  | B_get_token_prices => GET
  | B_get_protocols => GET
  | B_get_shortcut_route => GET
  | B_get_shortcut_quote => POST
  | B_get_swap_tokens => GET
  | B_post_swap_tokens => POST
  | B_post_static_ipor_info => POST
  | B_get_tokens_info => GET
  | B_get_wallet_info => GET
  | B_approve_wallet_token => GET
  | B_approvals_wallet_token => GET
  | B_get_wallet_balances => GET
  end.

(** The path parameters an invocation fills in; only get token prices
    has any. *)
Definition path_parameters (c : call) : string :=
  match c with
  | Get_token_prices _ chain_id address => str_int chain_id ++ "/" ++ address
  | _ => ""
  end.

(** The path column of the same table. *)
Definition table_path (c : call) : string :=
  match binding_of c with
  | B_get_actions => "/actions"
  | B_post_bundle_info => "/shortcuts/bundle"
  | B_get_supported_networks => "/networks"
  | B_get_token_prices => "/shortcuts/route/" ++ path_parameters c
  | B_get_protocols => "/protocols"
  | B_get_shortcut_route => "/shortcuts/quote"
  | B_get_shortcut_quote => "/shortcuts/quote"
  | B_get_swap_tokens => "/shortcuts/route"
  | B_post_swap_tokens => "/shortcuts/route"
  | B_post_static_ipor_info => "/static/ipor"
  | B_get_tokens_info => "/tokens"
  | B_get_wallet_info => "/wallet"
  | B_approve_wallet_token => "/wallet/approve"
  | B_approvals_wallet_token => "/wallet/approvals"
  | B_get_wallet_balances => "/wallet/balances"
  end.

(** The optional parameters of an invocation (declared [Optional],
    [... | None], with [default=None], or listed as optional in the table
    of bindings), each as its wire key and the argument's value. *)
Definition optional_fields (c : call) : list (string * pyval) :=
  match c with
  | Post_bundle_info _ chain_id _ _ _ _ => [("chainId", PInt chain_id)]
  | Get_protocols _ slug => [("slug", str_or_none slug)]
  | Get_shortcut_route _ chain_id _ _ _ _ _ _ _ _ ia istd =>
      [("chainId", int_or_none chain_id);
       ("ignoreAggregators", str_or_none ia);
       ("ignoreStandards", str_or_none istd)]
  | Get_shortcut_quote _ _ _ _ _ _ _ _ ia block_number =>
      [("ignoreAggregators", str_list_or_none ia);
       ("blockNumber", str_or_none block_number)]
  | Get_swap_tokens _ _ _ _ _ _ _ _ _ _ min_amount_out _ _ _ _ _ _ ve =>
      [("minAmountOut", str_or_none min_amount_out);
       ("variableEstimates", str_or_none ve)]
  | Post_swap_tokens _ _ _ _ _ _ _ _ min_amount_out _ _ _ _ _ _ _ _ ve =>
      [("minAmountOut", str_or_none min_amount_out);
       ("variableEstimates", str_or_none ve)]
  | Get_tokens_info _ _ _ protocol_slug primary_address type _ _ =>
      [("protocolSlug", str_or_none protocol_slug);
       ("primaryAddress", str_or_none primary_address);
       ("type", str_or_none type)]
  | Get_wallet_info _ chain_id _ routing_strategy =>
      [("chainId", int_or_none chain_id);
       ("routingStrategy", PStr routing_strategy)]
  | Approve_wallet_token _ chain_id _ _ _ _ =>
      [("chainId", int_or_none chain_id)]
  | Approvals_wallet_token _ chain_id _ _ =>
      [("chainId", int_or_none chain_id)]
  | _ => []
  end.

(** The parameters a binding adds to its dictionary only under an [if] on
    their own value, the key being absent before. *)
Definition conditional_fields (c : call) : list (string * pyval) :=
  match c with
  | Post_bundle_info _ chain_id _ _ _ _ => [("chainId", PInt chain_id)]
  | Get_protocols _ slug => [("slug", str_or_none slug)]
  | Get_shortcut_route _ _ _ _ _ _ _ _ _ _ ia _ =>
      [("ignoreAggregators", str_or_none ia)]
  | Get_tokens_info _ _ _ protocol_slug primary_address type _ _ =>
      [("protocolSlug", str_or_none protocol_slug);
       ("primaryAddress", str_or_none primary_address);
       ("type", str_or_none type)]
  | Get_wallet_info _ chain_id _ routing_strategy =>
      [("chainId", int_or_none chain_id);
       ("routingStrategy", PStr routing_strategy)]
  | Approvals_wallet_token _ _ _ routing_strategy =>
      [("routingStrategy", PStr routing_strategy)]
  | _ => []
  end.

(** The optional parameters a binding writes into the dictionary literal
    itself, whatever their value. *)
Definition literal_fields (c : call) : list (string * pyval) :=
  match c with
  | Get_shortcut_route _ chain_id _ _ _ _ _ _ _ _ _ _ =>
      [("chainId", int_or_none chain_id)]
  | Get_shortcut_quote _ _ _ _ _ _ _ _ ia block_number =>
      [("ignoreAggregators", str_list_or_none ia);
       ("blockNumber", str_or_none block_number)]
  | Get_swap_tokens _ _ _ _ _ _ _ _ _ _ min_amount_out _ _ _ _ _ _ ve =>
      [("minAmountOut", str_or_none min_amount_out);
       ("variableEstimates", str_or_none ve)]
  | Post_swap_tokens _ _ _ _ _ _ _ _ min_amount_out _ _ _ _ _ _ _ _ ve =>
      [("minAmountOut", str_or_none min_amount_out);
       ("variableEstimates", str_or_none ve)]
  | Approve_wallet_token _ chain_id _ _ _ _ =>
      [("chainId", int_or_none chain_id)]
  | Approvals_wallet_token _ chain_id _ _ =>
      [("chainId", int_or_none chain_id)]
  | _ => []
  end.

(** The method the code issues where the table and the code part ways:
    get swap tokens posts its JSON body like post swap tokens. *)
Definition issued_method (b : binding) : method :=
  match b with
  | B_get_swap_tokens => POST
  | _ => table_method b
  end.

(** Endpoint fidelity as the specification words it: every request of
    the invocation has the method and the path of the table. *)
Definition follows_table (base_url : string) (c : call) : Prop :=
  forall net r,
    In r (sent (invoke base_url c) net) ->
    req_method r = table_method (binding_of c)
    /\ req_url r = base_url ++ table_path c.

(** The field-inclusion rule as the specification words it: no request
    of the invocation carries the key of an optional parameter whose value
    is falsy. *)
Definition omits_falsy_optionals (base_url : string) (c : call) : Prop :=
  forall net k v r,
    In (k, v) (optional_fields c) ->
    truthy v = false ->
    In r (sent (invoke base_url c) net) ->
    dict_mem k (payload r) = false.

(** The text in front of [{e!s}] in the closing [except Exception]
    clause, for the bindings that have one. *)
Definition fallback_prefix (b : binding) : option string :=
  match b with
  | B_get_actions => Some "error getting the enso actions "
  | B_get_token_prices | B_get_protocols => Some "error getting the enso tokens "
  | B_get_shortcut_route | B_get_shortcut_quote
  | B_get_swap_tokens | B_post_swap_tokens => Some "error getting swap route "
  | B_get_wallet_info | B_approve_wallet_token
  | B_approvals_wallet_token | B_get_wallet_balances =>
      Some "error getting the enso wallet "
  | B_post_bundle_info | B_get_supported_networks
  | B_post_static_ipor_info | B_get_tokens_info => None
  end.

(** A handler that issues no request of its own. *)
Definition silent {A : Type} (h : exn -> tool A) : Prop :=
  forall e net, snd (h e net) = [].

(** A server that answers every request with the same response, and a
    network that fails every request with the same exception. *)
Definition answering (resp : response) : transport := fun _ => Responds resp.

Definition failing (e : exn) : transport := fun _ => Fails e.

(** What formatting [e.status_code] ends in on an [HTTPStatusError]. *)
Definition no_status_code_attribute : exn :=
  new_exn AttributeError
    "'HTTPStatusError' object has no attribute 'status_code'".

(** What the closing clause of a ladder makes of an exception that the
    two httpx clauses let pass: the formatted text where the binding has
    an [except Exception], the exception itself where it has not. *)
Definition fallback (b : binding) (e : exn) : outcome pyval :=
  match fallback_prefix b with
  | Some prefix =>
      if isinstance e Exception
      then Return (PStr (prefix ++ exn_str e)) else Raise e
  | None => Raise e
  end.

(** The [try]/[except] ladder shared by the bindings, read as one
    function of what the network did with the request. *)
Definition ladder (b : binding) (rep : reply) : outcome pyval :=
  match rep with
  | Responds resp =>
      if is_success resp
      then match body resp with
           | Decodes v => Return v
           | Malformed d => fallback b (new_exn JSONDecodeError d)
           end
      else Raise no_status_code_attribute
  | Fails e =>
      if isinstance e HTTPStatusError
      then match getattr e "status_code" with
           | Return code =>
               Raise (from (new_exn Exception
                              ("API request failed with status code: "
                                 ++ py_str code)) e)
           | Raise x => Raise x
           end
      else if isinstance e HTTPError
           then Raise (from (new_exn Exception
                               ("An HTTP error occurred: " ++ exn_str e)) e)
           else fallback b e
  end.

(** The same invocation under another token. *)
Definition with_token (tok : string) (c : call) : call :=
  match c with
  | Get_actions _ => Get_actions tok
  | Post_bundle_info _ a1 a2 a3 a4 a5 => Post_bundle_info tok a1 a2 a3 a4 a5
  | Get_supported_networks _ a1 a2 => Get_supported_networks tok a1 a2
  | Get_token_prices _ a1 a2 => Get_token_prices tok a1 a2
  | Get_protocols _ a1 => Get_protocols tok a1
  | Get_shortcut_route _ a1 a2 a3 a4 a5 a6 a7 a8 a9 a10 a11 =>
      Get_shortcut_route tok a1 a2 a3 a4 a5 a6 a7 a8 a9 a10 a11
  | Get_shortcut_quote _ a1 a2 a3 a4 a5 a6 a7 a8 a9 =>
      Get_shortcut_quote tok a1 a2 a3 a4 a5 a6 a7 a8 a9
  | Get_swap_tokens _ a1 a2 a3 a4 a5 a6 a7 a8 a9 a10 a11 a12 a13 a14 a15 a16
      a17 =>
      Get_swap_tokens tok a1 a2 a3 a4 a5 a6 a7 a8 a9 a10 a11 a12 a13 a14 a15
        a16 a17
  | Post_swap_tokens _ a1 a2 a3 a4 a5 a6 a7 a8 a9 a10 a11 a12 a13 a14 a15 a16
      a17 =>
      Post_swap_tokens tok a1 a2 a3 a4 a5 a6 a7 a8 a9 a10 a11 a12 a13 a14 a15
        a16 a17
  | Post_static_ipor_info _ a1 a2 => Post_static_ipor_info tok a1 a2
  | Get_tokens_info _ a1 a2 a3 a4 a5 a6 a7 =>
      Get_tokens_info tok a1 a2 a3 a4 a5 a6 a7
  | Get_wallet_info _ a1 a2 a3 => Get_wallet_info tok a1 a2 a3
  | Approve_wallet_token _ a1 a2 a3 a4 a5 =>
      Approve_wallet_token tok a1 a2 a3 a4 a5
  | Approvals_wallet_token _ a1 a2 a3 => Approvals_wallet_token tok a1 a2 a3
  | Get_wallet_balances _ a1 a2 a3 => Get_wallet_balances tok a1 a2 a3
  end.

End Contract.

(* ===================================================================== *)
(** ** Request construction against the interpreter's state *)
(* ===================================================================== *)

(** What an invocation finds when it starts: the module's global names,
    the dictionaries that are alive, the time.  The statements of a
    binding that come before the client call read and write this state;
    whether the request they arrive at depends on it is the question of
    hidden state. *)

Module Interp.
Import Py Httpx.

(** The module's namespace after [from . import *], as far as the
    bindings name it. *)
Record namespace : Type := { base_url : string }.

Record state : Type := {
  globals : namespace;
  heap : list pydict;
  clock : Z
}.

(** A run of statements: the value and the state after it, or nothing
    when a reference points at no object. *)
Definition prog (A : Type) : Type := state -> option (A * state).

Definition ret {A} (a : A) : prog A := fun s => Some (a, s).

Definition bind {A B} (m : prog A) (k : A -> prog B) : prog B :=
  fun s =>
    match m s with
    | Some (a, s') => k a s'
    | None => None
    end.

(** The global name [base_url], read. *)
Definition global_base_url : prog string :=
  fun s => Some (base_url (globals s), s).

(** A dict display [{k1: v1, ...}]: a new object, known by its address. *)
Definition new_dict (d : pydict) : prog nat :=
  fun s =>
    Some (length (heap s),
          {| globals := globals s; heap := (heap s ++ [d])%list;
             clock := clock s |}).

Fixpoint heap_put (a : nat) (d : pydict) (h : list pydict) : list pydict :=
  match h, a with
  | [], _ => []
  | _ :: h', O => d :: h'
  | x :: h', S a' => x :: heap_put a' d h'
  end.

(** The object behind a reference. *)
Definition deref (a : nat) : prog pydict :=
  fun s =>
    match nth_error (heap s) a with
    | Some d => Some (d, s)
    | None => None
    end.

(** [obj[k] = v]: the object behind the reference changes in place. *)
Definition setitem (a : nat) (k : string) (v : pyval) : prog unit :=
  fun s =>
    match nth_error (heap s) a with
    | Some d =>
        Some (tt, {| globals := globals s;
                     heap := heap_put a (dict_set k v d) (heap s);
                     clock := clock s |})
    | None => None
    end.

(** [if b: m] *)
Definition when (b : bool) (m : prog unit) : prog unit :=
  if b then m else ret tt.

(** The header dictionary as the client takes it. *)
Definition header_items (d : pydict) : list (string * string) :=
  map (fun kv : string * pyval => (fst kv, py_str (snd kv))) d.

(** The arguments of [client.get(url, headers=headers, params=params)] at
    the moment of the call. *)
Definition get_call (url : string) (headers : nat) (params : option nat)
    : prog request :=
  bind (deref headers) (fun h =>
  bind (match params with
        | Some a => bind (deref a) (fun d => ret (Some d))
        | None => ret None
        end) (fun p =>
  ret {| req_method := GET; req_url := url; req_headers := header_items h;
         req_params := p; req_json := None |})).

(** The arguments of [client.post(url, headers=headers, json=data)] at
    the moment of the call. *)
Definition post_call (url : string) (headers data : nat) : prog request :=
  bind (deref headers) (fun h =>
  bind (deref data) (fun d =>
  ret {| req_method := POST; req_url := url; req_headers := header_items h;
         req_params := None; req_json := Some d |})).

(** Time passing between two invocations. *)
Definition tick (dt : Z) (s : state) : state :=
  {| globals := globals s; heap := heap s; clock := (clock s + dt)%Z |}.

End Interp.

Declare Scope prog_scope.
Delimit Scope prog_scope with prog.
Notation "x <- m ;; k" := (Interp.bind m (fun x => k))
  (at level 61, m at next level, right associativity) : prog_scope.
Notation "m ;; k" := (Interp.bind m (fun _ => k))
  (at level 61, right associativity) : prog_scope.

(** The statements of each binding up to its client call, in the order
    of the source: the URL from the global [base_url], the [headers]
    display, the [params] or [data] display, the conditional assignments
    into it, and the arguments the client is called with. *)

Module Construction.
Import Py Httpx Enso Interp.
Local Open Scope prog_scope.

Definition get_actions (api_token : string) : prog request :=
  base_url <- global_base_url ;;
  let url := base_url ++ "/actions" in
  headers <- new_dict [("accept", PStr "application/json");
                       ("Authorization", PStr ("Bearer " ++ api_token))] ;;
  get_call url headers None.

Definition post_bundle_info (api_token : string) (chain_id : Z)
    (from_address routing_strategy receiver spender : string)
    : prog request :=
  base_url <- global_base_url ;;
  let url := base_url ++ "/shortcuts/bundle" in
  headers <- new_dict [("accept", PStr "application/json");
                       ("Authorization", PStr ("Bearer " ++ api_token));
                       ("Content-Type", PStr "application/json")] ;;
  params <- new_dict [("fromAddress", PStr from_address);
                      ("routingStrategy", PStr routing_strategy);
                      ("receiver", PStr receiver);
                      ("spender", PStr spender)] ;;
  when (truthy (PInt chain_id))
       (setitem params "chainId" (PInt chain_id)) ;;
  post_call url headers params.

Definition get_supported_networks (api_token name chainId : string)
    : prog request :=
  base_url <- global_base_url ;;
  let url := base_url ++ "/networks" in
  headers <- new_dict [("accept", PStr "application/json");
                       ("Authorization", PStr ("Bearer " ++ api_token))] ;;
  params <- new_dict [("name", PStr name);
                      ("chainId", PStr chainId)] ;;
  get_call url headers (Some params).

Definition get_token_prices (api_token : string) (chain_id : Z)
    (address : string) : prog request :=
  base_url <- global_base_url ;;
  let url :=
    base_url ++ "/shortcuts/route/" ++ str_int chain_id ++ "/" ++ address in
  headers <- new_dict [("accept", PStr "application/json");
                       ("Authorization", PStr ("Bearer " ++ api_token))] ;;
  get_call url headers None.

Definition get_protocols (api_token : string) (slug : option string)
    : prog request :=
  base_url <- global_base_url ;;
  let url := base_url ++ "/protocols" in
  headers <- new_dict [("accept", PStr "application/json");
                       ("Authorization", PStr ("Bearer " ++ api_token))] ;;
  params <- new_dict [] ;;
  when (truthy (str_or_none slug))
       (setitem params "slug" (str_or_none slug)) ;;
  get_call url headers (Some params).

Definition get_shortcut_route (api_token : string) (chain_id : option Z)
    (from_address routing_strategy token_in token_out amount_in fee
       fee_receiver : string)
    (disable_rfqs : bool) (ignore_aggregators ignore_standards : option string)
    : prog request :=
  base_url <- global_base_url ;;
  let url := base_url ++ "/shortcuts/quote" in
  headers <- new_dict [("accept", PStr "application/json");
                       ("Authorization", PStr ("Bearer " ++ api_token))] ;;
  params <- new_dict [("chainId", int_or_none chain_id);
                      ("fromAddress", PStr from_address);
                      ("routingStrategy", PStr routing_strategy);
                      ("amountIn", PStr amount_in);
                      ("fee", PStr fee);
                      ("feeReceiver", PStr fee_receiver);
                      ("disableRFQs", PBool disable_rfqs);
                      ("tokenIn", PStr token_in);
                      ("tokenOut", PStr token_out)] ;;
  when (truthy (str_or_none ignore_aggregators))
       (setitem params "ignoreAggregators" (str_or_none ignore_aggregators)) ;;
  when (truthy (str_or_none ignore_aggregators))
       (setitem params "ignoreStandards" (str_or_none ignore_standards)) ;;
  get_call url headers (Some params).

Definition get_shortcut_quote (api_token : string) (chain_id : Z)
    (from_address routing_strategy : string) (route : list pydict)
    (fee : list string) (fee_receiver : string) (disable_rfqs : bool)
    (ignore_aggregators : option (list string)) (block_number : option string)
    : prog request :=
  base_url <- global_base_url ;;
  let url := base_url ++ "/shortcuts/quote" in
  headers <- new_dict [("accept", PStr "application/json");
                       ("Authorization", PStr ("Bearer " ++ api_token));
                       ("Content-Type", PStr "application/json")] ;;
  data <- new_dict [("chainId", PInt chain_id);
                    ("fromAddress", PStr from_address);
                    ("routingStrategy", PStr routing_strategy);
                    ("route", PList (map PDict route));
                    ("fee", str_list fee);
                    ("feeReceiver", PStr fee_receiver);
                    ("disableRFQs", PBool disable_rfqs);
                    ("ignoreAggregators", str_list_or_none ignore_aggregators);
                    ("blockNumber", str_or_none block_number)] ;;
  post_call url headers data.

Definition get_swap_tokens (api_token : string) (chain_id : Z)
    (from_address spender receiver : string)
    (token_in amount_in token_out : list string) (routing_strategy : string)
    (amount_out : list string) (min_amount_out : option string)
    (slippage : string) (fee : list string) (fee_receiver : string)
    (disable_rfqs : bool) (ignore_aggregators ignore_standards : list string)
    (variable_estimates : option string) : prog request :=
  base_url <- global_base_url ;;
  let url := base_url ++ "/shortcuts/route" in
  headers <- new_dict [("accept", PStr "application/json");
                       ("Authorization", PStr ("Bearer " ++ api_token));
                       ("Content-Type", PStr "application/json")] ;;
  data <- new_dict [("chainId", PInt chain_id);
                    ("fromAddress", PStr from_address);
                    ("routingStrategy", PStr routing_strategy);
                    ("receiver", PStr receiver);
                    ("spender", PStr spender);
                    ("amountIn", str_list amount_in);
                    ("amountOut", str_list amount_out);
                    ("minAmountOut", str_or_none min_amount_out);
                    ("slippage", PStr slippage);
                    ("fee", str_list fee);
                    ("feeReceiver", PStr fee_receiver);
                    ("disableRFQs", PBool disable_rfqs);
                    ("ignoreAggregators", str_list ignore_aggregators);
                    ("ignoreStandards", str_list ignore_standards);
                    ("tokenIn", str_list token_in);
                    ("tokenOut", str_list token_out);
                    ("variableEstimates", str_or_none variable_estimates)] ;;
  post_call url headers data.

Definition post_swap_tokens (api_token : string) (chain_id : Z)
    (from_address routing_strategy receiver spender : string)
    (amount_in amount_out : list string) (min_amount_out : option string)
    (slippage : string) (fee : list string) (fee_receiver : string)
    (disable_rfqs : bool) (ignore_aggregators ignore_standards : list string)
    (token_in token_out : list string) (variable_estimates : option string)
    : prog request :=
  base_url <- global_base_url ;;
  let url := base_url ++ "/shortcuts/route" in
  headers <- new_dict [("accept", PStr "application/json");
                       ("Authorization", PStr ("Bearer " ++ api_token));
                       ("Content-Type", PStr "application/json")] ;;
  data <- new_dict [("chainId", PInt chain_id);
                    ("fromAddress", PStr from_address);
                    ("routingStrategy", PStr routing_strategy);
                    ("receiver", PStr receiver);
                    ("spender", PStr spender);
                    ("amountIn", str_list amount_in);
                    ("amountOut", str_list amount_out);
                    ("minAmountOut", str_or_none min_amount_out);
                    ("slippage", PStr slippage);
                    ("fee", str_list fee);
                    ("feeReceiver", PStr fee_receiver);
                    ("disableRFQs", PBool disable_rfqs);
                    ("ignoreAggregators", str_list ignore_aggregators);
                    ("ignoreStandards", str_list ignore_standards);
                    ("tokenIn", str_list token_in);
                    ("tokenOut", str_list token_out);
                    ("variableEstimates", str_or_none variable_estimates)] ;;
  post_call url headers data.

Definition post_static_ipor_info (api_token : string) (chain_id : Z)
    (address : string) : prog request :=
  base_url <- global_base_url ;;
  let url := base_url ++ "/static/ipor" in
  headers <- new_dict [("accept", PStr "application/json");
                       ("Authorization", PStr ("Bearer " ++ api_token));
                       ("Content-Type", PStr "application/json")] ;;
  data <- new_dict [("chainId", PInt chain_id); ("address", PStr address)] ;;
  post_call url headers data.

Definition get_tokens_info (api_token : string) (chain_id : Z)
    (underlying_tokens : str_or_list)
    (protocol_slug primary_address type : option string) (page per_page : Z)
    : prog request :=
  base_url <- global_base_url ;;
  let url := base_url ++ "/tokens" in
  headers <- new_dict [("accept", PStr "application/json");
                       ("Authorization", PStr ("Bearer " ++ api_token))] ;;
  params <- new_dict [("chainId", PInt chain_id);
                      ("page", PInt page);
                      ("perPage", PInt per_page)] ;;
  when (truthy (str_or_none protocol_slug))
       (setitem params "protocolSlug" (str_or_none protocol_slug)) ;;
  when (truthy (str_or_none primary_address))
       (setitem params "primaryAddress" (str_or_none primary_address)) ;;
  when (truthy (str_or_none type))
       (setitem params "type" (str_or_none type)) ;;
  match underlying_tokens with
  | OneStr s => setitem params "underlyingTokens" (PStr s)
  | ManyStr l => setitem params "underlyingTokens" (PStr (join "," l))
  end ;;
  get_call url headers (Some params).

Definition get_wallet_info (api_token : string) (chain_id : option Z)
    (from_address routing_strategy : string) : prog request :=
  base_url <- global_base_url ;;
  let url := base_url ++ "/wallet" in
  headers <- new_dict [("accept", PStr "application/json");
                       ("Authorization", PStr ("Bearer " ++ api_token))] ;;
  params <- new_dict [("fromAddress", PStr from_address)] ;;
  when (truthy (int_or_none chain_id))
       (setitem params "chainId" (int_or_none chain_id)) ;;
  when (truthy (PStr routing_strategy))
       (setitem params "routingStrategy" (PStr routing_strategy)) ;;
  get_call url headers (Some params).

Definition approve_wallet_token (api_token : string) (chain_id : option Z)
    (from_address routing_strategy token_address amount : string)
    : prog request :=
  base_url <- global_base_url ;;
  let url := base_url ++ "/wallet/approve" in
  headers <- new_dict [("accept", PStr "application/json");
                       ("Authorization", PStr ("Bearer " ++ api_token))] ;;
  params <- new_dict [("chainId", int_or_none chain_id);
                      ("fromAddress", PStr from_address);
                      ("routingStrategy", PStr routing_strategy);
                      ("tokenAddress", PStr token_address);
                      ("amount", PStr amount)] ;;
  when (truthy (int_or_none chain_id))
       (setitem params "chainId" (int_or_none chain_id)) ;;
  when (truthy (PStr routing_strategy))
       (setitem params "routingStrategy" (PStr routing_strategy)) ;;
  get_call url headers (Some params).

Definition approvals_wallet_token (api_token : string) (chain_id : option Z)
    (from_address routing_strategy : string) : prog request :=
  base_url <- global_base_url ;;
  let url := base_url ++ "/wallet/approvals" in
  headers <- new_dict [("accept", PStr "application/json");
                       ("Authorization", PStr ("Bearer " ++ api_token))] ;;
  params <- new_dict [("chainId", int_or_none chain_id);
                      ("fromAddress", PStr from_address)] ;;
  when (truthy (int_or_none chain_id))
       (setitem params "chainId" (int_or_none chain_id)) ;;
  when (truthy (PStr routing_strategy))
       (setitem params "routingStrategy" (PStr routing_strategy)) ;;
  get_call url headers (Some params).

Definition get_wallet_balances (api_token : string) (chain_id : Z)
    (eoa_address : string) (use_eoa : bool) : prog request :=
  base_url <- global_base_url ;;
  let url := base_url ++ "/wallet/balances" in
  headers <- new_dict [("accept", PStr "application/json");
                       ("Authorization", PStr ("Bearer " ++ api_token))] ;;
  params <- new_dict [("chainId", PInt chain_id);
                      ("eoaAddress", PStr eoa_address);
                      ("useEoa", PBool use_eoa)] ;;
  get_call url headers (Some params).

(** The construction an invocation performs. *)
Definition construct (c : call) : prog request :=
  match c with
  | Get_actions t => get_actions t
  | Post_bundle_info t a1 a2 a3 a4 a5 => post_bundle_info t a1 a2 a3 a4 a5
  | Get_supported_networks t a1 a2 => get_supported_networks t a1 a2
  | Get_token_prices t a1 a2 => get_token_prices t a1 a2
  | Get_protocols t a1 => get_protocols t a1
  | Get_shortcut_route t a1 a2 a3 a4 a5 a6 a7 a8 a9 a10 a11 =>
      get_shortcut_route t a1 a2 a3 a4 a5 a6 a7 a8 a9 a10 a11
  | Get_shortcut_quote t a1 a2 a3 a4 a5 a6 a7 a8 a9 =>
      get_shortcut_quote t a1 a2 a3 a4 a5 a6 a7 a8 a9
  | Get_swap_tokens t a1 a2 a3 a4 a5 a6 a7 a8 a9 a10 a11 a12 a13 a14 a15 a16
      a17 =>
      get_swap_tokens t a1 a2 a3 a4 a5 a6 a7 a8 a9 a10 a11 a12 a13 a14 a15 a16
        a17
  | Post_swap_tokens t a1 a2 a3 a4 a5 a6 a7 a8 a9 a10 a11 a12 a13 a14 a15 a16
      a17 =>
      post_swap_tokens t a1 a2 a3 a4 a5 a6 a7 a8 a9 a10 a11 a12 a13 a14 a15
        a16 a17
  | Post_static_ipor_info t a1 a2 => post_static_ipor_info t a1 a2
  | Get_tokens_info t a1 a2 a3 a4 a5 a6 a7 =>
      get_tokens_info t a1 a2 a3 a4 a5 a6 a7
  | Get_wallet_info t a1 a2 a3 => get_wallet_info t a1 a2 a3
  | Approve_wallet_token t a1 a2 a3 a4 a5 =>
      approve_wallet_token t a1 a2 a3 a4 a5
  | Approvals_wallet_token t a1 a2 a3 => approvals_wallet_token t a1 a2 a3
  | Get_wallet_balances t a1 a2 a3 => get_wallet_balances t a1 a2 a3
  end.

(** The state an invocation leaves behind (the state it found, should a
    reference of it point at nothing). *)
Definition state_after (c : call) (s : state) : state :=
  match construct c s with
  | Some (_, s') => s'
  | None => s
  end.

(** The state after a series of invocations. *)
Definition state_after_all (cs : list call) (s : state) : state :=
  fold_left (fun s' c => state_after c s') cs s.

End Construction.

(* ===================================================================== *)
(** ** Properties *)
(* ===================================================================== *)

Module EnsoProps.
Import Py Httpx Enso Contract.
Local Open Scope tool_scope.

(** *** Dictionaries *)

Section DictLaws.

Variables (k : string) (v : pyval).

Lemma dict_get_set_same (d : pydict) : dict_get k (dict_set k v d) = Some v.
Proof.
  induction d as [ | [k' v'] d IH]; simpl.
  - rewrite String.eqb_refl. reflexivity.
  - destruct (String.eqb_spec k' k) as [-> | Hne]; simpl.
    + rewrite String.eqb_refl. reflexivity.
    + destruct (String.eqb_spec k' k); [ contradiction | exact IH ].
Qed.

Lemma dict_get_set_other (k' : string) (d : pydict) :
  k <> k' -> dict_get k' (dict_set k v d) = dict_get k' d.
Proof.
  intros Hne. induction d as [ | [k0 v0] d IH]; simpl.
  - destruct (String.eqb_spec k k'); [ contradiction | reflexivity ].
  - destruct (String.eqb_spec k0 k) as [-> | Hk0]; simpl.
    + destruct (String.eqb_spec k k'); [ contradiction | reflexivity ].
    + destruct (String.eqb_spec k0 k'); [ reflexivity | exact IH ].
Qed.

(** Assigning a key the value it already has leaves the dictionary as it
    is: the reason a re-assignment after the literal is dead code. *)
Lemma dict_set_same_value (d : pydict) :
  dict_get k d = Some v -> dict_set k v d = d.
Proof.
  induction d as [ | [k' v'] d IH]; simpl; intros H.
  - discriminate H.
  - destruct (String.eqb_spec k' k) as [-> | Hne].
    + injection H as ->. reflexivity.
    + rewrite (IH H). reflexivity.
Qed.

(** Assigning a key the dictionary lacks appends it. *)
Lemma dict_set_fresh (d : pydict) :
  dict_get k d = None -> dict_set k v d = (d ++ [(k, v)])%list.
Proof.
  induction d as [ | [k' v'] d IH]; simpl; intros H.
  - reflexivity.
  - destruct (String.eqb_spec k' k) as [-> | Hne].
    + discriminate H.
    + rewrite (IH H). reflexivity.
Qed.

End DictLaws.

Lemma if_same {A : Type} (b : bool) (x : A) : (if b then x else x) = x.
Proof. destruct b; reflexivity. Qed.

(** *** One request per invocation *)

(** The body of every [try] block issues its request and nothing more,
    whatever the network answers. *)
Lemma sent_exchange (r : request) (net : transport) :
  sent (response <- send r ;;
        raise_for_status response ;;
        response_json response) net = [r].
Proof.
  unfold sent, bind, send.
  destruct (net r) as [resp | e]; cbn; [ | reflexivity ].
  unfold raise_for_status.
  destruct (is_success resp); cbn; [ | reflexivity ].
  unfold response_json.
  destruct (body resp); reflexivity.
Qed.

(** Handlers that send nothing leave the requests of the body as they
    are. *)
Lemma sent_try_except {A : Type} (m : tool A)
    (hs : list (exn_class * (exn -> tool A))) (net : transport) :
  Forall (fun h => silent (snd h)) hs ->
  sent (try_except m hs) net = sent m net.
Proof.
  intros Hs. unfold sent, try_except.
  destruct (m net) as [[a | e] l]; [ reflexivity | ].
  destruct (find (fun h => isinstance e (fst h)) hs) as [h | ] eqn:Hfind;
    [ | reflexivity ].
  apply find_some in Hfind. destruct Hfind as [Hin _].
  rewrite Forall_forall in Hs. specialize (Hs h Hin e net).
  destruct (snd h e net) as [o l']. simpl in Hs. subst l'.
  simpl. apply app_nil_r.
Qed.

Lemma silent_status_handler (k : pyval -> exn) :
  silent (A := pyval)
    (fun e => status_code <- lift (getattr e "status_code") ;;
              raise_from (k status_code) e).
Proof.
  intros e net. unfold bind, lift.
  destruct (getattr e "status_code"); reflexivity.
Qed.

Lemma silent_raise_from (k : exn -> exn) :
  silent (A := pyval) (fun e => raise_from (k e) e).
Proof. intros e net. reflexivity. Qed.

Lemma silent_ret (k : exn -> pyval) : silent (fun e => ret (k e)).
Proof. intros e net. reflexivity. Qed.

Ltac handlers_silent :=
  repeat first
    [ apply Forall_nil
    | apply Forall_cons;
      [ first [ apply silent_status_handler
              | apply silent_raise_from
              | apply silent_ret ] | ] ].

Lemma sent_binding (r : request)
    (hs : list (exn_class * (exn -> tool pyval))) (net : transport) :
  Forall (fun h => silent (snd h)) hs ->
  sent (try_except
          (response <- send r ;;
           raise_for_status response ;;
           response_json response) hs) net = [r].
Proof.
  intros Hs. rewrite sent_try_except by exact Hs. apply sent_exchange.
Qed.

Ltac unfold_binding :=
  unfold invoke, get_actions, post_bundle_info, get_supported_networks,
    get_token_prices, get_protocols, get_shortcut_route, get_shortcut_quote,
    get_swap_tokens, post_swap_tokens, post_static_ipor_info, get_tokens_info,
    get_wallet_info, approve_wallet_token, approvals_wallet_token,
    get_wallet_balances, approve_wallet_token_unconditional,
    approvals_wallet_token_unconditional,
    approvals_wallet_token_no_chain_recheck, async_with_client, client_get,
    client_post;
  cbv zeta.

Ltac sent_of_binding :=
  unfold_binding; rewrite sent_binding by handlers_silent.

Ltac run_binding :=
  unfold_binding;
  cbv beta iota zeta
    delta [run try_except bind send answering failing raise_for_status
           response_json fst snd].

(** The request of an invocation does not depend on the network. *)
Lemma sent_invoke_independent (base_url : string) (c : call)
    (net net' : transport) :
  sent (invoke base_url c) net = sent (invoke base_url c) net'.
Proof.
  destruct c; unfold_binding;
    rewrite !sent_binding by handlers_silent; reflexivity.
Qed.

(** *** Strings *)

Lemma prefix_first_char (c : ascii) (n h : string) :
  String.prefix (String c n) h = true -> exists h', h = String c h'.
Proof.
  destruct h as [ | c' h']; simpl; [ discriminate | ].
  destruct (ascii_dec c c') as [-> | _]; [ eauto | discriminate ].
Qed.

Lemma contains_first_char (c : ascii) (n h : string) :
  contains (String c n) h = true -> In c (list_ascii_of_string h).
Proof.
  induction h as [ | c' h' IH]; intros H.
  - simpl in H. discriminate.
  - cbn [contains] in H. apply orb_true_iff in H. destruct H as [H | H].
    + apply prefix_first_char in H. destruct H as [h'' Heq].
      injection Heq as -> _. left. reflexivity.
    + right. apply IH. exact H.
Qed.

(** [str(n)] starts with a digit or a minus sign. *)
Lemma str_int_first_char (z : Z) :
  exists c s, str_int z = String c s /\ starts_number c = true.
Proof.
  unfold str_int. destruct (Z.to_int z) as [d | d].
  - destruct d; cbn; eexists; eexists; split; reflexivity.
  - cbn. eexists; eexists; split; reflexivity.
Qed.

(** A text without digits and minus signs contains no rendered integer. *)
Lemma contains_no_number (h : string) (z : Z) :
  forallb (fun c => negb (starts_number c)) (list_ascii_of_string h) = true ->
  contains (str_int z) h = false.
Proof.
  intros Hh.
  destruct (contains (str_int z) h) eqn:Hc; [ | reflexivity ].
  destruct (str_int_first_char z) as (c & s & Heq & Hd).
  rewrite Heq in Hc. apply contains_first_char in Hc.
  rewrite forallb_forall in Hh. specialize (Hh c Hc).
  rewrite Hd in Hh. discriminate.
Qed.

(** *** Status failures *)

(** Every binding answers a non-2xx response with the [AttributeError]
    of its first handler. *)
Lemma run_status_failure (base_url : string) (c : call) (resp : response) :
  is_success resp = false ->
  run (invoke base_url c) (answering resp) = Raise no_status_code_attribute.
Proof.
  intros H. destruct c; run_binding; rewrite H; reflexivity.
Qed.

(** *** Transport failures *)

(** An exception of the httpx hierarchy other than [HTTPStatusError]
    (connection error, timeout) leaves every binding as an [Exception]
    that quotes the diagnostic and keeps the original as its cause. *)
Lemma run_transport_failure (base_url : string) (c : call) (e : exn) :
  isinstance e HTTPStatusError = false ->
  isinstance e HTTPError = true ->
  run (invoke base_url c) (failing e)
  = Raise (from (new_exn Exception ("An HTTP error occurred: " ++ exn_str e))
                e).
Proof.
  intros Hs He. destruct c; run_binding; cbn [find fst snd];
    rewrite Hs, He; reflexivity.
Qed.

Lemma transport_classes_are_http_errors (c : exn_class) :
  issubclass c TransportError = true ->
  issubclass c HTTPError = true /\ issubclass c HTTPStatusError = false.
Proof. destruct c; cbn; intros H; (discriminate H || (split; reflexivity)). Qed.

Lemma run_transport_class_failure (base_url : string) (c : call) (e : exn) :
  isinstance e TransportError = true ->
  run (invoke base_url c) (failing e)
  = Raise (from (new_exn Exception ("An HTTP error occurred: " ++ exn_str e))
                e).
Proof.
  intros H. apply transport_classes_are_http_errors in H.
  destruct H as [He Hs]. apply run_transport_failure; assumption.
Qed.

(** C2: for every binding, a non-2xx response sends the [except
    httpx.HTTPStatusError] handler to [e.status_code], which the exception
    does not have; the handler raises [AttributeError], the sibling
    clauses do not catch it although it is an [Exception], and the caller
    receives that [AttributeError], whose message contains no rendered
    number at all, so no status code: neither the [Exception] with the
    status code nor a formatted error string. *)
Theorem status_handler_raises_attribute_error
    (base_url : string) (c : call) (resp : response) :
  is_success resp = false ->
  getattr (http_status_error resp) "status_code"
    = Raise no_status_code_attribute
  /\ run (invoke base_url c) (answering resp) = Raise no_status_code_attribute
  /\ exn_cls no_status_code_attribute = AttributeError
  /\ isinstance no_status_code_attribute Exception = true
  /\ isinstance no_status_code_attribute HTTPError = false
  /\ (forall code : Z,
        contains (str_int code) (exn_str no_status_code_attribute) = false).
Proof.
  intros H. repeat split.
  - apply run_status_failure. exact H.
  - intros code. apply contains_no_number. reflexivity.
Qed.

Lemma status_handler_raises_attribute_error_witness :
  is_success {| status_code := 500; reason_phrase := "Internal Server Error";
                resp_url := "https://api.enso.finance/api/v1/tokens";
                body := Decodes PNone |} = false
  /\ run (invoke "https://api.enso.finance/api/v1" (Get_tokens_info "token" 1 (OneStr "0xAA") None None None 1 100))
      (answering {| status_code := 500; reason_phrase := "Internal Server Error";
                    resp_url := "https://api.enso.finance/api/v1/tokens";
                    body := Decodes PNone |})
  = Raise no_status_code_attribute.
Proof.
  split; [ reflexivity | ].
  apply (status_handler_raises_attribute_error
           "https://api.enso.finance/api/v1"
           (Get_tokens_info "token" 1 (OneStr "0xAA") None None None 1 100)
           {| status_code := 500; reason_phrase := "Internal Server Error";
              resp_url := "https://api.enso.finance/api/v1/tokens";
              body := Decodes PNone |}).
  reflexivity.
Defined.

(** C1, on the code: [get_actions] against a server that answers 404.
    The caller gets an [AttributeError] whose message does not contain
    404, not an error that names the status. *)
Theorem get_actions_not_found_loses_status_code :
  exists e : exn,
    run (get_actions "https://api.enso.finance/api/v1" "token")
        (answering {| status_code := 404; reason_phrase := "Not Found";
                      resp_url := "https://api.enso.finance/api/v1/actions";
                      body := Decodes (PDict []) |})
    = Raise e
    /\ exn_cls e = AttributeError
    /\ exn_str e = "'HTTPStatusError' object has no attribute 'status_code'"
    /\ contains "404" (exn_str e) = false.
Proof.
  eexists. repeat split.
Qed.

(** *** Failures outside the httpx hierarchy *)

(** C6: a 2xx response whose body is not JSON makes [response.json()]
    raise [JSONDecodeError], which is no [httpx.HTTPError].  The bindings
    that close their ladder with [except Exception] (among them
    get_actions, get_swap_tokens, get_shortcut_route, get_wallet_info)
    return the formatted error string as their result; get_tokens_info,
    get_supported_networks, post_bundle_info and post_static_ipor_info
    have no such clause and let the exception through. *)
Theorem undecodable_body_fallback
    (base_url : string) (c : call) (resp : response) (d : string) :
  is_success resp = true ->
  body resp = Malformed d ->
  isinstance (new_exn JSONDecodeError d) HTTPError = false
  /\ run (invoke base_url c) (answering resp)
     = match fallback_prefix (binding_of c) with
       | Some prefix => Return (PStr (prefix ++ d))
       | None => Raise (new_exn JSONDecodeError d)
       end
  /\ map fallback_prefix
       [B_get_actions; B_get_swap_tokens; B_get_shortcut_route;
        B_get_wallet_info]
     = [Some "error getting the enso actions ";
        Some "error getting swap route ";
        Some "error getting swap route ";
        Some "error getting the enso wallet "]
  /\ map fallback_prefix
       [B_get_tokens_info; B_get_supported_networks; B_post_bundle_info;
        B_post_static_ipor_info]
     = [None; None; None; None].
Proof.
  intros Hs Hb. repeat split.
  destruct c; run_binding; rewrite Hs, Hb; reflexivity.
Qed.

Lemma undecodable_body_fallback_witness :
  is_success {| status_code := 200; reason_phrase := "OK";
                resp_url := "https://api.enso.finance/api/v1/actions";
                body := Malformed "Expecting value: line 1 column 1 (char 0)" |}
  = true
  /\ run (invoke "https://api.enso.finance/api/v1" (Get_actions "token"))
      (answering {| status_code := 200; reason_phrase := "OK";
                    resp_url := "https://api.enso.finance/api/v1/actions";
                    body := Malformed "Expecting value: line 1 column 1 (char 0)" |})
  = Return (PStr "error getting the enso actions Expecting value: line 1 column 1 (char 0)").
Proof.
  split; [ reflexivity | ].
  apply (undecodable_body_fallback
           "https://api.enso.finance/api/v1" (Get_actions "token")
           {| status_code := 200; reason_phrase := "OK";
              resp_url := "https://api.enso.finance/api/v1/actions";
              body := Malformed "Expecting value: line 1 column 1 (char 0)" |}
           "Expecting value: line 1 column 1 (char 0)");
    reflexivity.
Defined.

(** *** Headers *)

(** C5: the request of every invocation carries exactly [accept:
    application/json] and [Authorization: Bearer <api_token>], and
    [Content-Type: application/json] besides when it is a POST. *)
Theorem headers_carry_token (base_url : string) (c : call) (net : transport) :
  exists r : request,
    sent (invoke base_url c) net = [r]
    /\ req_headers r = contract_headers (req_method r) (api_token_of c)
    /\ In ("Authorization", "Bearer " ++ api_token_of c) (req_headers r)
    /\ In ("accept", "application/json") (req_headers r).
Proof.
  destruct c; sent_of_binding; eexists; (split; [ reflexivity | ]);
    cbn; auto.
Qed.

(** *** Field inclusion *)

Ltac split_truthy :=
  repeat match goal with
         | |- context [truthy ?v] => destruct (truthy v) eqn:?
         end.

(** C3 as worded fails on [get_swap_tokens]: [min_amount_out=None]
    is written into the body under [minAmountOut]. *)
Lemma swap_tokens_serialises_none :
  ~ omits_falsy_optionals "https://api.enso.finance/api/v1"
      (Get_swap_tokens "token" 1
         "0xd8da6bf26964af9d7eed9e03e53415d37aa96045"
         "0xd8da6bf26964af9d7eed9e03e53415d37aa96045"
         "0xd8da6bf26964af9d7eed9e03e53415d37aa96045"
         ["0xEeeeeEeeeEeEeeEeEeEeeEEEeeeeEeeeeeeeEEeE"] ["1000000000000000000"]
         ["0x6b175474e89094c44da98b954eedeac495271d0f"] "router" []
         None "300" [] "" false [] [] None).
Proof.
  intros H.
  specialize
    (H (failing (new_exn ConnectError "All connection attempts failed"))
       "minAmountOut" PNone).
  cbn in H.
  specialize (H _ (or_introl eq_refl) eq_refl (or_introl eq_refl)).
  discriminate H.
Qed.

(** C3, as the code has it: a parameter that a binding adds under an
    [if] on its own value (chainId of post_bundle_info; slug of
    get_protocols; protocolSlug, primaryAddress and type of
    get_tokens_info; chainId and routingStrategy of get_wallet_info;
    ignoreAggregators of get_shortcut_route; routingStrategy of
    approvals_wallet_token) is absent from the query or body when the
    value is falsy and present under its camel-case key otherwise; an
    optional parameter written in the dictionary literal is serialised
    whatever its value, [None] included. *)
Theorem conditional_fields_follow_truthiness
    (base_url : string) (c : call) (net : transport) :
  exists r : request,
    sent (invoke base_url c) net = [r]
    /\ Forall (fun kv =>
                 dict_get (fst kv) (payload r)
                 = if truthy (snd kv) then Some (snd kv) else None)
              (conditional_fields c)
    /\ Forall (fun kv => dict_get (fst kv) (payload r) = Some (snd kv))
              (literal_fields c).
Proof.
  destruct c; sent_of_binding; eexists; (split; [ reflexivity | ]);
    cbn [conditional_fields literal_fields payload req_json req_params
         fst snd];
    (split; repeat (first [ apply Forall_nil | apply Forall_cons ]));
    cbn [fst snd]; split_truthy;
    try match goal with
        | u : str_or_list |- _ => destruct u
        end;
    reflexivity.
Qed.

(** C4: in [get_shortcut_route] both [ignoreAggregators] and
    [ignoreStandards] are in the query exactly when [ignore_aggregators]
    is truthy; [ignoreStandards] is then bound to [ignore_standards] as it
    is, [None] included, and [ignore_standards] itself plays no part in
    whether the key is there. *)
Theorem shortcut_route_ignore_fields
    (base_url api_token : string) (chain_id : option Z)
    (from_address routing_strategy token_in token_out amount_in fee
       fee_receiver : string)
    (disable_rfqs : bool) (ignore_aggregators ignore_standards : option string)
    (net : transport) :
  exists (r : request) (params : pydict),
    sent (get_shortcut_route base_url api_token chain_id from_address
            routing_strategy token_in token_out amount_in fee fee_receiver
            disable_rfqs ignore_aggregators ignore_standards) net = [r]
    /\ req_params r = Some params
    /\ dict_mem "ignoreAggregators" params
       = truthy (str_or_none ignore_aggregators)
    /\ dict_mem "ignoreStandards" params
       = truthy (str_or_none ignore_aggregators)
    /\ dict_get "ignoreAggregators" params
       = (if truthy (str_or_none ignore_aggregators)
          then Some (str_or_none ignore_aggregators) else None)
    /\ dict_get "ignoreStandards" params
       = (if truthy (str_or_none ignore_aggregators)
          then Some (str_or_none ignore_standards) else None).
Proof.
  sent_of_binding. eexists; eexists. split; [ reflexivity | ].
  cbn [req_params]. split; [ reflexivity | ].
  unfold dict_mem.
  destruct (truthy (str_or_none ignore_aggregators)).
  - rewrite (dict_get_set_other "ignoreStandards" _ "ignoreAggregators")
      by discriminate.
    rewrite !dict_get_set_same. repeat split.
  - repeat split.
Qed.

(** *** List coercion *)

(** C8: [get_tokens_info] sends a string [underlying_tokens] unchanged
    and a list joined with commas. *)
Theorem underlying_tokens_coercion
    (base_url api_token : string) (chain_id : Z)
    (protocol_slug primary_address type : option string) (page per_page : Z)
    (net : transport) :
  (forall s : string,
      exists r : request,
        sent (get_tokens_info base_url api_token chain_id (OneStr s)
                protocol_slug primary_address type page per_page) net = [r]
        /\ dict_get "underlyingTokens" (payload r) = Some (PStr s))
  /\ (forall l : list string,
        exists r : request,
          sent (get_tokens_info base_url api_token chain_id (ManyStr l)
                  protocol_slug primary_address type page per_page) net = [r]
          /\ dict_get "underlyingTokens" (payload r)
             = Some (PStr (join "," l)))
  /\ (exists r : request,
        sent (get_tokens_info base_url api_token chain_id (OneStr "0xAA")
                protocol_slug primary_address type page per_page) net = [r]
        /\ dict_get "underlyingTokens" (payload r) = Some (PStr "0xAA"))
  /\ (exists r : request,
        sent (get_tokens_info base_url api_token chain_id
                (ManyStr ["0xAA"; "0xBB"])
                protocol_slug primary_address type page per_page) net = [r]
        /\ dict_get "underlyingTokens" (payload r)
           = Some (PStr "0xAA,0xBB")).
Proof.
  repeat split; intros; sent_of_binding; eexists;
    (split; [ reflexivity | ]);
    cbn [payload req_json req_params]; split_truthy; reflexivity.
Qed.

(** *** Endpoints *)

(** C9 as worded fails on [get_swap_tokens]: its row of the table gives
    GET, the binding calls [client.post]. *)
Lemma get_swap_tokens_posts :
  ~ follows_table "https://api.enso.finance/api/v1"
      (Get_swap_tokens "token" 1
         "0xd8da6bf26964af9d7eed9e03e53415d37aa96045"
         "0xd8da6bf26964af9d7eed9e03e53415d37aa96045"
         "0xd8da6bf26964af9d7eed9e03e53415d37aa96045"
         ["0xEeeeeEeeeEeEeeEeEeEeeEEEeeeeEeeeeeeeEEeE"] ["1000000000000000000"]
         ["0x6b175474e89094c44da98b954eedeac495271d0f"] "router" []
         None "300" [] "" false [] [] None).
Proof.
  intros H.
  specialize
    (H (failing (new_exn ConnectError "All connection attempts failed"))).
  cbn in H.
  specialize (H _ (or_introl eq_refl)).
  destruct H as [H _]. discriminate H.
Qed.

(** C9, as the code has it: every binding issues the path of the table
    and, get_swap_tokens apart, its method; get_swap_tokens issues POST
    to [/shortcuts/route].  get_wallet_balances issues GET to
    [<base_url>/wallet/balances] with chainId, eoaAddress and useEoa in
    the query whatever their values, and get_token_prices issues GET to
    [<base_url>/shortcuts/route/{chain_id}/{address}] with no query. *)
Theorem endpoints_follow_table (base_url : string) :
  (forall (c : call) (net : transport),
      exists r : request,
        sent (invoke base_url c) net = [r]
        /\ req_url r = base_url ++ table_path c
        /\ req_method r = issued_method (binding_of c))
  /\ (forall b : binding,
        b = B_get_swap_tokens \/ issued_method b = table_method b)
  /\ (forall (api_token : string) (chain_id : Z) (eoa_address : string)
             (use_eoa : bool) (net : transport),
        exists r : request,
          sent (get_wallet_balances base_url api_token chain_id eoa_address
                  use_eoa) net = [r]
          /\ req_method r = GET
          /\ req_url r = base_url ++ "/wallet/balances"
          /\ req_params r
             = Some [("chainId", PInt chain_id);
                     ("eoaAddress", PStr eoa_address);
                     ("useEoa", PBool use_eoa)])
  /\ (forall (api_token : string) (chain_id : Z) (address : string)
             (net : transport),
        exists r : request,
          sent (get_token_prices base_url api_token chain_id address) net
          = [r]
          /\ req_method r = GET
          /\ req_url r
             = base_url ++ "/shortcuts/route/" ++ str_int chain_id ++ "/"
                        ++ address
          /\ req_params r = None).
Proof.
  split; [ | split; [ | split ] ].
  - intros c net.
    destruct c; sent_of_binding; eexists; repeat split.
  - intros b. destruct b; (left; reflexivity) || (right; reflexivity).
  - intros. sent_of_binding. eexists. repeat split.
  - intros. sent_of_binding. eexists. repeat split.
Qed.

(** *** Redundant conditionals in wallet.py *)

(** C7 as worded fails on [approvals_wallet_token]: taking both
    conditionals out changes the query, the literal has no
    routingStrategy. *)
Lemma approvals_conditional_is_live :
  sent (approvals_wallet_token "https://api.enso.finance/api/v1" "token"
          (Some 1%Z) "0xd8da6bf26964af9d7eed9e03e53415d37aa96045" "router")
       (failing (new_exn ConnectError "All connection attempts failed"))
  <> sent (approvals_wallet_token_unconditional
             "https://api.enso.finance/api/v1" "token"
             (Some 1%Z) "0xd8da6bf26964af9d7eed9e03e53415d37aa96045" "router")
          (failing (new_exn ConnectError "All connection attempts failed")).
Proof.
  intros H. vm_compute in H. discriminate H.
Qed.

(** C7, as the code has it: in [approve_wallet_token] the two trailing
    conditionals are dead code, the binding without them behaves the same
    on every input; in [approvals_wallet_token] only the chainId
    conditional is dead, and the routingStrategy conditional is what puts
    routingStrategy into the query, which the literal does not hold. *)
Theorem wallet_redundant_conditionals (base_url : string) :
  (forall (api_token : string) (chain_id : option Z)
          (from_address routing_strategy token_address amount : string)
          (net : transport),
      approve_wallet_token base_url api_token chain_id from_address
        routing_strategy token_address amount net
      = approve_wallet_token_unconditional base_url api_token chain_id
          from_address routing_strategy token_address amount net)
  /\ (forall (api_token : string) (chain_id : option Z)
             (from_address routing_strategy : string) (net : transport),
        approvals_wallet_token base_url api_token chain_id from_address
          routing_strategy net
        = approvals_wallet_token_no_chain_recheck base_url api_token chain_id
            from_address routing_strategy net)
  /\ (forall (api_token : string) (chain_id : option Z)
             (from_address routing_strategy : string) (net : transport),
        exists (r r' : request) (params params' : pydict),
          sent (approvals_wallet_token base_url api_token chain_id
                  from_address routing_strategy) net = [r]
          /\ sent (approvals_wallet_token_unconditional base_url api_token
                     chain_id from_address routing_strategy) net = [r']
          /\ req_params r = Some params
          /\ req_params r' = Some params'
          /\ params' = [("chainId", int_or_none chain_id);
                        ("fromAddress", PStr from_address)]
          /\ params
             = (if truthy (PStr routing_strategy)
                then params' ++ [("routingStrategy", PStr routing_strategy)]
                else params')%list).
Proof.
  split; [ | split ].
  - intros. unfold_binding.
    rewrite (dict_set_same_value "chainId") by reflexivity.
    rewrite if_same.
    rewrite (dict_set_same_value "routingStrategy") by reflexivity.
    rewrite if_same. reflexivity.
  - intros. unfold_binding.
    rewrite (dict_set_same_value "chainId") by reflexivity.
    rewrite if_same. reflexivity.
  - intros. unfold_binding. rewrite !sent_binding by handlers_silent.
    do 4 eexists. do 5 (split; [ reflexivity | ]).
    rewrite (dict_set_same_value "chainId") by reflexivity.
    rewrite if_same.
    rewrite (dict_set_fresh "routingStrategy") by reflexivity.
    reflexivity.
Qed.

(* ===================================================================== *)
(** ** Further properties of the bindings *)
(* ===================================================================== *)

(** *** The ladder as a whole *)

Lemma status_error_is_http_error (e : exn) :
  isinstance e HTTPStatusError = true -> isinstance e HTTPError = true.
Proof. destruct e as [[] m a c]; cbn; intros H; (discriminate H || reflexivity). Qed.

Lemma every_exn_is_exception (e : exn) : isinstance e Exception = true.
Proof. destruct e as [[] m a c]; reflexivity. Qed.

Ltac split_ladder :=
  repeat match goal with
         | |- context [is_success ?r] => destruct (is_success r) eqn:?
         | |- context [body ?r] => destruct (body r) eqn:?
         | |- context [isinstance ?e ?c] =>
             is_var e; destruct (isinstance e c) eqn:?
         | |- context [getattr ?e ?n] =>
             is_var e; destruct (getattr e n) eqn:?
         end.

(** Every binding issues its request and then does what the ladder does
    with the network's reply to it. *)
Lemma run_ladder (base_url : string) (c : call) (net : transport) :
  exists r : request,
    sent (invoke base_url c) net = [r]
    /\ run (invoke base_url c) net = ladder (binding_of c) (net r).
Proof.
  destruct c; unfold_binding; rewrite sent_binding by handlers_silent;
    eexists; (split; [ reflexivity | ]);
    cbv beta iota zeta
      delta [run try_except bind send raise_for_status response_json lift
             raise_from raise ret fst snd ladder fallback binding_of
             fallback_prefix];
    match goal with
    | |- context [net ?r] => destruct (net r) as [resp | e]
    end;
    cbn [find fst snd]; split_ladder; reflexivity.
Qed.

(** *** Success *)

(** X1: with a body that decodes to [v], a binding returns [v], as it
    is and whatever its shape, exactly when the status is between 200 and
    299; 199 and 300 are already failures. *)
Theorem json_returned_iff_2xx
    (base_url : string) (c : call) (resp : response) (v : pyval) :
  body resp = Decodes v ->
  (run (invoke base_url c) (answering resp) = Return v
   <-> (200 <= status_code resp <= 299)%Z).
Proof.
  intros Hb.
  destruct (run_ladder base_url c (answering resp)) as (r & _ & ->).
  unfold answering, ladder, is_success. rewrite Hb.
  destruct (Z.leb_spec 200 (status_code resp));
    destruct (Z.leb_spec (status_code resp) 299); cbn [andb];
    split; intros H'; try reflexivity; try discriminate H'; lia.
Qed.

Lemma json_returned_iff_2xx_witness :
  body {| status_code := 204; reason_phrase := "No Content";
          resp_url := ""; body := Decodes (PList [PStr "ethereum"]) |}
  = Decodes (PList [PStr "ethereum"])
  /\ run (invoke "https://api.enso.finance/api/v1"
            (Get_supported_networks "token" "" ""))
         (answering {| status_code := 204; reason_phrase := "No Content";
                       resp_url := "";
                       body := Decodes (PList [PStr "ethereum"]) |})
     = Return (PList [PStr "ethereum"]).
Proof.
  split; [ reflexivity | ].
  apply (proj2 (json_returned_iff_2xx "https://api.enso.finance/api/v1"
                  (Get_supported_networks "token" "" "")
                  {| status_code := 204; reason_phrase := "No Content";
                     resp_url := "";
                     body := Decodes (PList [PStr "ethereum"]) |}
                  (PList [PStr "ethereum"]) eq_refl)).
  cbn. lia.
Defined.

(** *** Failures of the client call *)

(** X2: an [httpx.HTTPError] other than a status error, raised by the
    client call (connection refused, timeout, too many redirects), leaves
    every binding, those with a closing [except Exception] included, as
    an [Exception] whose text is the diagnostic after "An HTTP error
    occurred: " and whose [__cause__] is the original exception. *)
Theorem transport_failure_is_wrapped
    (base_url : string) (c : call) (e : exn) :
  isinstance e HTTPError = true ->
  isinstance e HTTPStatusError = false ->
  exists x : exn,
    run (invoke base_url c) (failing e) = Raise x
    /\ exn_cls x = Exception
    /\ exn_str x = "An HTTP error occurred: " ++ exn_str e
    /\ exn_cause x = Some e.
Proof.
  intros He Hs.
  destruct (run_ladder base_url c (failing e)) as (r & _ & ->).
  unfold failing, ladder. rewrite Hs, He.
  eexists. repeat split.
Qed.

Lemma transport_failure_is_wrapped_witness :
  isinstance (new_exn ConnectTimeout "timed out") HTTPError = true
  /\ exists x : exn,
       run (invoke "https://api.enso.finance/api/v1"
              (Get_wallet_info "token" (Some 1%Z)
                 "0xd8da6bf26964af9d7eed9e03e53415d37aa96045" "router"))
           (failing (new_exn ConnectTimeout "timed out")) = Raise x
       /\ exn_cls x = Exception
       /\ exn_str x = "An HTTP error occurred: timed out"
       /\ exn_cause x = Some (new_exn ConnectTimeout "timed out").
Proof.
  split; [ reflexivity | ].
  apply (transport_failure_is_wrapped "https://api.enso.finance/api/v1"
           (Get_wallet_info "token" (Some 1%Z)
              "0xd8da6bf26964af9d7eed9e03e53415d37aa96045" "router")
           (new_exn ConnectTimeout "timed out"));
    reflexivity.
Defined.

(** X3: an exception of the client call that is no [httpx.HTTPError]
    comes back as the formatted text from the bindings that close their
    ladder with [except Exception], and unchanged, as an exception, from
    post_bundle_info, get_supported_networks, post_static_ipor_info and
    get_tokens_info. *)
Theorem client_exception_fallback
    (base_url : string) (c : call) (e : exn) :
  isinstance e HTTPError = false ->
  run (invoke base_url c) (failing e)
  = match fallback_prefix (binding_of c) with
    | Some prefix => Return (PStr (prefix ++ exn_str e))
    | None => Raise e
    end.
Proof.
  intros He.
  destruct (run_ladder base_url c (failing e)) as (r & _ & ->).
  unfold failing, ladder, fallback. rewrite He.
  destruct (isinstance e HTTPStatusError) eqn:Hs.
  - apply status_error_is_http_error in Hs. congruence.
  - rewrite every_exn_is_exception. reflexivity.
Qed.

Lemma client_exception_fallback_witness :
  isinstance (new_exn ValueError "Invalid URL") HTTPError = false
  /\ run (invoke "" (Get_token_prices "token" 1 "0xabc"))
         (failing (new_exn ValueError "Invalid URL"))
     = Return (PStr "error getting the enso tokens Invalid URL").
Proof.
  split; [ reflexivity | ].
  apply (client_exception_fallback ""
           (Get_token_prices "token" 1 "0xabc")
           (new_exn ValueError "Invalid URL")).
  reflexivity.
Defined.

(** X4: whatever the network does, no binding lets an exception of the
    httpx hierarchy reach the caller: what is raised is the wrapping
    [Exception], the handler's own [AttributeError], or an exception that
    was never an [httpx.HTTPError]. *)
Theorem no_httpx_exception_escapes
    (base_url : string) (c : call) (net : transport) :
  match run (invoke base_url c) net with
  | Return _ => True
  | Raise x => isinstance x HTTPError = false
  end.
Proof.
  destruct (run_ladder base_url c net) as (r & _ & ->).
  unfold ladder, fallback.
  destruct (net r) as [resp | e].
  - destruct (is_success resp); [ | reflexivity ].
    destruct (body resp); [ exact I | ].
    destruct (fallback_prefix (binding_of c)); [ exact I | reflexivity ].
  - destruct (isinstance e HTTPStatusError).
    + unfold getattr.
      destruct (dict_get "status_code" (exn_attrs e)); reflexivity.
    + destruct (isinstance e HTTPError) eqn:He; [ reflexivity | ].
      destruct (fallback_prefix (binding_of c)); [ | exact He ].
      destruct (isinstance e Exception); [ exact I | exact He ].
Qed.

(** *** What a returned value means *)

(** X5: post_bundle_info, get_supported_networks, post_static_ipor_info
    and get_tokens_info return a value only on success: whenever one of
    them returns [v], the server answered the request with a 2xx response
    whose body decodes to [v]. *)
Theorem strict_bindings_return_only_json
    (base_url : string) (c : call) (net : transport) (v : pyval) :
  fallback_prefix (binding_of c) = None ->
  run (invoke base_url c) net = Return v ->
  exists (r : request) (resp : response),
    sent (invoke base_url c) net = [r]
    /\ net r = Responds resp
    /\ is_success resp = true
    /\ body resp = Decodes v.
Proof.
  intros Hp Hrun.
  destruct (run_ladder base_url c net) as (r & Hsent & Hl).
  rewrite Hl in Hrun. unfold ladder, fallback in Hrun. rewrite Hp in Hrun.
  exists r. destruct (net r) as [resp | e].
  - exists resp. destruct (is_success resp); [ | discriminate Hrun ].
    destruct (body resp) as [v' | d]; [ | discriminate Hrun ].
    injection Hrun as ->. repeat split. exact Hsent.
  - exfalso. destruct (isinstance e HTTPStatusError).
    + destruct (getattr e "status_code"); discriminate Hrun.
    + destruct (isinstance e HTTPError); discriminate Hrun.
Qed.

Lemma strict_bindings_return_only_json_witness :
  fallback_prefix (binding_of (Post_static_ipor_info "token" 1 "0xabc")) = None
  /\ exists (r : request) (resp : response),
       sent (invoke "https://api.enso.finance/api/v1"
               (Post_static_ipor_info "token" 1 "0xabc"))
            (answering {| status_code := 200; reason_phrase := "OK";
                          resp_url := ""; body := Decodes (PDict []) |})
       = [r]
       /\ answering {| status_code := 200; reason_phrase := "OK";
                       resp_url := ""; body := Decodes (PDict []) |} r
          = Responds resp
       /\ is_success resp = true
       /\ body resp = Decodes (PDict []).
Proof.
  split; [ reflexivity | ].
  apply (strict_bindings_return_only_json "https://api.enso.finance/api/v1"
           (Post_static_ipor_info "token" 1 "0xabc")
           (answering {| status_code := 200; reason_phrase := "OK";
                         resp_url := ""; body := Decodes (PDict []) |})
           (PDict []));
    reflexivity.
Defined.

(** X6: a binding with a closing [except Exception] gives its caller no
    way to tell a failure from data: the value it returns when a 2xx
    body fails to decode with diagnostic [d] is the value it returns when
    the server's JSON is the string made of the fallback text and [d]. *)
Theorem fallback_indistinguishable_from_data
    (base_url : string) (c : call) (prefix d : string)
    (ok broken : response) :
  fallback_prefix (binding_of c) = Some prefix ->
  is_success ok = true -> body ok = Decodes (PStr (prefix ++ d)) ->
  is_success broken = true -> body broken = Malformed d ->
  run (invoke base_url c) (answering ok)
  = run (invoke base_url c) (answering broken)
  /\ run (invoke base_url c) (answering broken)
     = Return (PStr (prefix ++ d)).
Proof.
  intros Hp Hok Hbok Hbr Hbbr.
  destruct (run_ladder base_url c (answering ok)) as (r & _ & ->).
  destruct (run_ladder base_url c (answering broken)) as (r' & _ & ->).
  unfold answering, ladder, fallback.
  rewrite Hok, Hbok, Hbr, Hbbr, Hp. split; reflexivity.
Qed.

Lemma fallback_indistinguishable_from_data_witness :
  fallback_prefix (binding_of (Get_protocols "token" None))
  = Some "error getting the enso tokens "
  /\ run (invoke "https://api.enso.finance/api/v1" (Get_protocols "token" None))
         (answering {| status_code := 200; reason_phrase := "OK";
                       resp_url := "";
                       body := Decodes
                                 (PStr "error getting the enso tokens Expecting value") |})
     = run (invoke "https://api.enso.finance/api/v1"
              (Get_protocols "token" None))
           (answering {| status_code := 200; reason_phrase := "OK";
                         resp_url := "";
                         body := Malformed "Expecting value" |}).
Proof.
  split; [ reflexivity | ].
  apply (fallback_indistinguishable_from_data
           "https://api.enso.finance/api/v1" (Get_protocols "token" None)
           "error getting the enso tokens " "Expecting value"
           {| status_code := 200; reason_phrase := "OK"; resp_url := "";
              body := Decodes
                        (PStr "error getting the enso tokens Expecting value") |}
           {| status_code := 200; reason_phrase := "OK"; resp_url := "";
              body := Malformed "Expecting value" |});
    reflexivity.
Defined.

(** *** The two swap bindings *)

(** X7: [get_swap_tokens] and [post_swap_tokens] are one tool under two
    names: given the same arguments, each in its own position of the
    signature, they issue the same request and end in the same result. *)
Theorem get_swap_tokens_is_post_swap_tokens
    (base_url api_token : string) (chain_id : Z)
    (from_address spender receiver : string)
    (token_in amount_in token_out : list string) (routing_strategy : string)
    (amount_out : list string) (min_amount_out : option string)
    (slippage : string) (fee : list string) (fee_receiver : string)
    (disable_rfqs : bool) (ignore_aggregators ignore_standards : list string)
    (variable_estimates : option string) (net : transport) :
  let by_get :=
    get_swap_tokens base_url api_token chain_id from_address spender receiver
      token_in amount_in token_out routing_strategy amount_out min_amount_out
      slippage fee fee_receiver disable_rfqs ignore_aggregators
      ignore_standards variable_estimates in
  let by_post :=
    post_swap_tokens base_url api_token chain_id from_address routing_strategy
      receiver spender amount_in amount_out min_amount_out slippage fee
      fee_receiver disable_rfqs ignore_aggregators ignore_standards token_in
      token_out variable_estimates in
  sent by_get net = sent by_post net /\ run by_get net = run by_post net.
Proof.
  split; reflexivity.
Qed.

(** *** Where the token goes *)

(** X8: the token reaches the Authorization header and nothing else:
    the same invocation under another token has the same method, URL,
    query parameters and body, and the headers of that other token. *)
Theorem token_only_in_authorization
    (base_url : string) (c : call) (tok : string) (net : transport) :
  exists r r' : request,
    sent (invoke base_url c) net = [r]
    /\ sent (invoke base_url (with_token tok c)) net = [r']
    /\ req_method r' = req_method r
    /\ req_url r' = req_url r
    /\ req_params r' = req_params r
    /\ req_json r' = req_json r
    /\ req_headers r' = contract_headers (req_method r) tok.
Proof.
  destruct c; cbn [with_token]; unfold_binding;
    rewrite !sent_binding by handlers_silent;
    eexists; eexists; repeat split.
Qed.

(** *** The URL of get_token_prices *)

Lemma append_inj_l (s x y : string) : s ++ x = s ++ y -> x = y.
Proof.
  induction s as [ | a s IH]; simpl; intros H.
  - exact H.
  - injection H as H. exact (IH H).
Qed.

(** Two texts cut at the first occurrence of a character agree part by
    part. *)
Lemma split_at_first (c : ascii) (s1 s2 t1 t2 : string) :
  ~ In c (list_ascii_of_string s1) ->
  ~ In c (list_ascii_of_string s2) ->
  s1 ++ String c t1 = s2 ++ String c t2 ->
  s1 = s2 /\ t1 = t2.
Proof.
  revert s2. induction s1 as [ | a s1 IH]; intros [ | b s2] H1 H2 H;
    simpl in *.
  - injection H as ->. split; reflexivity.
  - injection H as -> _. exfalso. apply H2. left. reflexivity.
  - injection H as -> _. exfalso. apply H1. left. reflexivity.
  - injection H as -> H.
    destruct (IH s2) as [-> ->]; [ tauto | tauto | exact H | ].
    split; reflexivity.
Qed.

Lemma uint_chars (d : Decimal.uint) (c : ascii) :
  In c (list_ascii_of_string (NilEmpty.string_of_uint d)) ->
  starts_number c = true.
Proof.
  induction d; simpl; intros H;
    try contradiction;
    (destruct H as [<- | H]; [ reflexivity | exact (IHd H) ]).
Qed.

Lemma str_int_chars (z : Z) (c : ascii) :
  In c (list_ascii_of_string (str_int z)) -> starts_number c = true.
Proof.
  unfold str_int. destruct (Z.to_int z) as [d | d]; simpl.
  - destruct d; try apply uint_chars.
    simpl. intros [<- | []]. reflexivity.
  - intros [<- | H]; [ reflexivity | ].
    destruct d; try (revert H; apply uint_chars).
    simpl in H. destruct H as [<- | []]. reflexivity.
Qed.

Lemma to_int_proper (z : Z) :
  Z.to_int z <> Decimal.Pos Decimal.Nil
  /\ Z.to_int z <> Decimal.Neg Decimal.Nil.
Proof.
  destruct z; simpl; split; try discriminate; intros H; injection H as H;
    exact (DecimalPos.Unsigned.to_uint_nonnil _ H).
Qed.

(** [str] of an [int] is one-to-one. *)
Lemma str_int_inj (z z' : Z) : str_int z = str_int z' -> z = z'.
Proof.
  unfold str_int. intros H. apply DecimalZ.to_int_inj.
  destruct (to_int_proper z) as [H1 H2].
  destruct (to_int_proper z') as [H3 H4].
  pose proof (NilZero.isi _ H1 H2) as E.
  pose proof (NilZero.isi _ H3 H4) as E'.
  rewrite H in E. rewrite E in E'. injection E' as E'. exact E'.
Qed.

(** X9: [get_token_prices] never sends two different (chain_id, address)
    pairs to the same URL: under one base URL, equal URLs mean equal
    chain ids and equal addresses, although the address goes into the
    path as it is. *)
Theorem token_prices_url_injective
    (base_url api_token api_token' : string) (chain_id chain_id' : Z)
    (address address' : string) (net net' : transport) (r r' : request) :
  sent (get_token_prices base_url api_token chain_id address) net = [r] ->
  sent (get_token_prices base_url api_token' chain_id' address') net' = [r'] ->
  req_url r = req_url r' ->
  chain_id = chain_id' /\ address = address'.
Proof.
  unfold_binding. rewrite !sent_binding by handlers_silent.
  intros [= <-] [= <-]. cbn [req_url]. intros H.
  apply append_inj_l in H.
  apply (append_inj_l "/shortcuts/route/") in H.
  apply split_at_first in H.
  - destruct H as [Hc Ha]. split; [ exact (str_int_inj _ _ Hc) | exact Ha ].
  - intros Hin. apply str_int_chars in Hin. discriminate Hin.
  - intros Hin. apply str_int_chars in Hin. discriminate Hin.
Qed.

Lemma token_prices_url_injective_witness :
  sent (get_token_prices "https://api.enso.finance/api/v1" "token" 1
          "0x030bA81f1c18d280636F32af80b9AAd02Cf0854e")
       (failing (new_exn ConnectError "All connection attempts failed"))
  = [{| req_method := GET;
        req_url := "https://api.enso.finance/api/v1/shortcuts/route/1/0x030bA81f1c18d280636F32af80b9AAd02Cf0854e";
        req_headers := contract_headers GET "token";
        req_params := None; req_json := None |}]
  /\ (1%Z = 1%Z
      /\ "0x030bA81f1c18d280636F32af80b9AAd02Cf0854e"
         = "0x030bA81f1c18d280636F32af80b9AAd02Cf0854e").
Proof.
  split; [ reflexivity | ].
  apply (token_prices_url_injective "https://api.enso.finance/api/v1"
           "token" "other token" 1 1
           "0x030bA81f1c18d280636F32af80b9AAd02Cf0854e"
           "0x030bA81f1c18d280636F32af80b9AAd02Cf0854e"
           (failing (new_exn ConnectError "All connection attempts failed"))
           (answering {| status_code := 200; reason_phrase := "OK";
                         resp_url := ""; body := Decodes (PDict []) |})
           {| req_method := GET;
              req_url := "https://api.enso.finance/api/v1/shortcuts/route/1/0x030bA81f1c18d280636F32af80b9AAd02Cf0854e";
              req_headers := contract_headers GET "token";
              req_params := None; req_json := None |}
           {| req_method := GET;
              req_url := "https://api.enso.finance/api/v1/shortcuts/route/1/0x030bA81f1c18d280636F32af80b9AAd02Cf0854e";
              req_headers := contract_headers GET "other token";
              req_params := None; req_json := None |});
    reflexivity.
Defined.

(** *** Request construction and the interpreter's state *)

Lemma nth_error_last (h : list pydict) (d : pydict) :
  nth_error (h ++ [d]) (length h) = Some d.
Proof. induction h as [ | x h IH]; simpl; [ reflexivity | exact IH ]. Qed.

Lemma nth_error_first_of_two (h : list pydict) (d1 d2 : pydict) :
  nth_error ((h ++ [d1]) ++ [d2]) (length h) = Some d1.
Proof. induction h as [ | x h IH]; simpl; [ reflexivity | exact IH ]. Qed.

Lemma heap_put_last (h : list pydict) (d d' : pydict) :
  Interp.heap_put (length h) d' (h ++ [d]) = (h ++ [d'])%list.
Proof.
  induction h as [ | x h IH]; simpl; [ reflexivity | rewrite IH; reflexivity ].
Qed.

Ltac run_construction :=
  cbv beta iota zeta
    delta [Construction.construct Construction.get_actions
           Construction.post_bundle_info Construction.get_supported_networks
           Construction.get_token_prices Construction.get_protocols
           Construction.get_shortcut_route Construction.get_shortcut_quote
           Construction.get_swap_tokens Construction.post_swap_tokens
           Construction.post_static_ipor_info Construction.get_tokens_info
           Construction.get_wallet_info Construction.approve_wallet_token
           Construction.approvals_wallet_token
           Construction.get_wallet_balances
           Interp.bind Interp.ret Interp.global_base_url Interp.new_dict
           Interp.get_call Interp.post_call Interp.deref Interp.setitem
           Interp.when Interp.globals Interp.heap Interp.clock
           Interp.base_url].

Ltac step_heap :=
  repeat (progress
            (rewrite ?nth_error_last, ?nth_error_first_of_two, ?heap_put_last);
          run_construction).

(** The construction run against any state ends in the request the
    binding hands to its client, and leaves the globals and the clock as
    they were. *)
Lemma construct_sent (c : call) (s : Interp.state) (net : transport) :
  exists (r : request) (s' : Interp.state),
    Construction.construct c s = Some (r, s')
    /\ Interp.globals s' = Interp.globals s
    /\ Interp.clock s' = Interp.clock s
    /\ sent (invoke (Interp.base_url (Interp.globals s)) c) net = [r].
Proof.
  destruct s as [[b] h t].
  destruct c; sent_of_binding; run_construction; split_truthy;
    try match goal with
        | u : str_or_list |- _ => destruct u
        end;
    step_heap;
    eexists; eexists; (split; [ reflexivity | ]); repeat split.
Qed.

Lemma globals_state_after (c : call) (s : Interp.state) :
  Interp.globals (Construction.state_after c s) = Interp.globals s.
Proof.
  unfold Construction.state_after.
  destruct (construct_sent c s (failing (new_exn ConnectError "")))
    as (r & s' & -> & Hg & _).
  exact Hg.
Qed.

(** No series of invocations rebinds a global. *)
Lemma globals_state_after_all (cs : list call) (s : Interp.state) :
  Interp.globals (Construction.state_after_all cs s) = Interp.globals s.
Proof.
  unfold Construction.state_after_all.
  revert s. induction cs as [ | c cs IH]; intros s; simpl.
  - reflexivity.
  - rewrite IH. apply globals_state_after.
Qed.

(** *** Determinism *)

(** C10: an invocation constructs its request from its arguments and
    the global [base_url], which no binding rebinds, and from nothing else
    the interpreter holds.  Two states that bind [base_url] alike, however
    their dictionaries alive and their clocks differ, give the same
    arguments the same descriptor: same URL, headers, query parameters
    and body.  So does the same interpreter later on, after any other
    invocations and any lapse of time; and that descriptor is the request
    the binding hands to its client, whatever the network then does. *)
Theorem request_construction_deterministic
    (c : call) (s1 s2 : Interp.state) (between : list call) (dt : Z) :
  Interp.base_url (Interp.globals s1) = Interp.base_url (Interp.globals s2) ->
  exists (r : request) (s1' s2' s3 : Interp.state),
    Construction.construct c s1 = Some (r, s1')
    /\ Construction.construct c s2 = Some (r, s2')
    /\ Construction.construct c
         (Interp.tick dt (Construction.state_after_all between s1'))
       = Some (r, s3)
    /\ Interp.globals s1' = Interp.globals s1
    /\ Interp.globals s3 = Interp.globals s1
    /\ (forall net : transport,
          sent (invoke (Interp.base_url (Interp.globals s1)) c) net = [r]).
Proof.
  intros Hb.
  pose (net0 := failing (new_exn ConnectError "")).
  destruct (construct_sent c s1 net0) as (r & s1' & H1 & G1 & _ & S1).
  destruct (construct_sent c s2 net0) as (r2 & s2' & H2 & _ & _ & S2).
  destruct (construct_sent c
              (Interp.tick dt (Construction.state_after_all between s1'))
              net0) as (r3 & s3 & H3 & G3 & _ & S3).
  assert (Gmid : Interp.globals
                   (Interp.tick dt (Construction.state_after_all between s1'))
                 = Interp.globals s1).
  { unfold Interp.tick. cbn [Interp.globals].
    rewrite globals_state_after_all. exact G1. }
  rewrite <- Hb, S1 in S2. injection S2 as <-.
  rewrite Gmid, S1 in S3. injection S3 as <-.
  exists r, s1', s2', s3. repeat split; try assumption.
  - rewrite G3. exact Gmid.
  - intros net. rewrite (sent_invoke_independent _ c net net0). exact S1.
Qed.

Lemma request_construction_deterministic_witness :
  Interp.base_url
    (Interp.globals
       {| Interp.globals :=
            {| Interp.base_url := "https://api.enso.finance/api/v1" |};
          Interp.heap := []; Interp.clock := 0 |})
  = Interp.base_url
      (Interp.globals
         {| Interp.globals :=
              {| Interp.base_url := "https://api.enso.finance/api/v1" |};
            Interp.heap := [[("left", PStr "over")]; []];
            Interp.clock := 1730000000 |})
  /\ exists (r : request) (s1' s2' s3 : Interp.state),
       Construction.construct
         (Get_wallet_info "token" (Some 1%Z)
            "0xd8da6bf26964af9d7eed9e03e53415d37aa96045" "router")
         {| Interp.globals :=
              {| Interp.base_url := "https://api.enso.finance/api/v1" |};
            Interp.heap := []; Interp.clock := 0 |}
       = Some (r, s1')
       /\ Construction.construct
            (Get_wallet_info "token" (Some 1%Z)
               "0xd8da6bf26964af9d7eed9e03e53415d37aa96045" "router")
            {| Interp.globals :=
                 {| Interp.base_url := "https://api.enso.finance/api/v1" |};
               Interp.heap := [[("left", PStr "over")]; []];
               Interp.clock := 1730000000 |}
          = Some (r, s2')
       /\ Construction.construct
            (Get_wallet_info "token" (Some 1%Z)
               "0xd8da6bf26964af9d7eed9e03e53415d37aa96045" "router")
            (Interp.tick 60
               (Construction.state_after_all
                  [Get_actions "token"; Get_protocols "token" (Some "aave-v3")]
                  s1'))
          = Some (r, s3)
       /\ Interp.globals s1'
          = {| Interp.base_url := "https://api.enso.finance/api/v1" |}
       /\ Interp.globals s3
          = {| Interp.base_url := "https://api.enso.finance/api/v1" |}
       /\ (forall net : transport,
             sent (invoke "https://api.enso.finance/api/v1"
                     (Get_wallet_info "token" (Some 1%Z)
                        "0xd8da6bf26964af9d7eed9e03e53415d37aa96045" "router"))
                  net
             = [r]).
Proof.
  split; [ reflexivity | ].
  apply (request_construction_deterministic
           (Get_wallet_info "token" (Some 1%Z)
              "0xd8da6bf26964af9d7eed9e03e53415d37aa96045" "router")
           {| Interp.globals :=
                {| Interp.base_url := "https://api.enso.finance/api/v1" |};
              Interp.heap := []; Interp.clock := 0 |}
           {| Interp.globals :=
                {| Interp.base_url := "https://api.enso.finance/api/v1" |};
              Interp.heap := [[("left", PStr "over")]; []];
              Interp.clock := 1730000000 |}
           [Get_actions "token"; Get_protocols "token" (Some "aave-v3")]
           60).
  reflexivity.
Defined.

End EnsoProps.
